(** * Grocery POS: the transaction engine of [grocery_pos.py]

    A shallow embedding of the billing screen ([POSFrame]) and of the data
    handling functions it calls ([load_data], [save_data], [log_sale]),
    followed by the properties of the cart, the totals, the checkout and the
    receipt.

    Widgets that only display (the cart list, the labels of the totals and
    of the change, the low-stock dot) are not part of the state: they are
    computed from it and never read back; what they show is given further
    down as functions of the state.  Message boxes are the [signal]s an
    operation returns, in the order they are shown.  What the operator
    types into the add forms (barcode, count, weight) is given to
    [scan_item] and [add_weighted_item] as arguments; that these entries are
    emptied or reset afterwards is not part of the model. *)

From Stdlib Require Import ZArith QArith Qcanon Floats Ascii.
From stdpp Require Import gmap strings list fin_maps pretty.

Close Scope Qc_scope.
Close Scope Q_scope.
Open Scope Z_scope.

(** ** Numbers

    The program computes with Python numbers: [int] for a scanned count,
    [float] for prices, quantities and money.  The operations are kept
    abstract in a class so that what a function does with them can be read
    off its definition.  The numbers of the JSON files are taken as floats.
    A count stays an int ([Z]) until the program converts it: [int_fits n]
    tells whether [float(n)] returns (it raises [OverflowError] for an int
    too large), [of_int n] is the float it then gives, and [nlt_int x n] is
    [x < n] for a float and an int, which Python decides by value without
    converting.  Apart from a count that fits, [of_int] is applied to the
    constants of the program only (0, 100, the low-stock threshold).  Two
    instances follow the model: IEEE binary64 (what the program runs on)
    and exact canonical rationals (the decimal reading of the
    specification). *)

Class Arith (num : Type) := {
  int_fits : Z → bool;
  of_int : Z → num;
  nlt_int : num → Z → bool;
  nadd : num → num → num;
  nsub : num → num → num;
  nmul : num → num → num;
  ndiv : num → num → num;
  nltb : num → num → bool;
  nleb : num → num → bool;
}.

(** [format(x, '.<digits>f')]. *)
Class Show (num : Type) := {
  fmt_fixed : nat → num → string;
}.

(** *** Exact rationals *)

Definition Qc_of_int (z : Z) : Qc := Q2Qc (inject_Z z).

Definition Qc_ltb (x y : Qc) : bool :=
  match Qccompare x y with Lt => true | _ => false end.

Definition Qc_leb (x y : Qc) : bool :=
  match Qccompare x y with Gt => false | _ => true end.

#[export] Instance Qc_arith : Arith Qc := {|
  int_fits := λ _, true;
  of_int := Qc_of_int;
  nlt_int := λ x z, Qc_ltb x (Qc_of_int z);
  nadd := Qcplus;
  nsub := Qcminus;
  nmul := Qcmult;
  ndiv := Qcdiv;
  nltb := Qc_ltb;
  nleb := Qc_leb;
|}.

(** The nearest integer, ties to even. *)
Definition round_half_even (q : Q) : Z :=
  let n := Qnum q in
  let d := Z.pos (Qden q) in
  let fl := n / d in
  let r2 := 2 * (n mod d) in
  if r2 <? d then fl
  else if d <? r2 then fl + 1
  else if Z.even fl then fl else fl + 1.

(** [digits] decimal digits of [n], zero-filled on the left. *)
Fixpoint zero_fill (digits : nat) (n : Z) : string :=
  match digits with
  | O => ""
  | S d => zero_fill d (n / 10) +:+ pretty (n mod 10)
  end.

(** Fixed-point notation with [digits] decimals, as ['%.<digits>f'] prints a
    value: a minus sign for a negative value, no point when [digits] is 0. *)
Definition Qc_fmt_fixed (digits : nat) (x : Qc) : string :=
  let scale := 10 ^ Z.of_nat digits in
  let m := Z.abs (round_half_even (Qmult (this x) (inject_Z scale))) in
  (if Qc_ltb x (Qc_of_int 0) then "-" else "")
    +:+ pretty (m / scale)
    +:+ match digits with O => "" | S _ => "." +:+ zero_fill digits (m mod scale) end.

#[export] Instance Qc_show : Show Qc := {| fmt_fixed := Qc_fmt_fixed |}.

(** *** IEEE binary64 *)

(** [float(z)] where it returns: the binary64 value nearest to [z], ties to
    even. *)
Definition float_of_int (z : Z) : float :=
  SF2Prim (binary_normalize prec emax z 0 false).

(** [float(z)] returns: the nearest value is finite.  For an int that rounds
    past the largest float Python raises [OverflowError]. *)
Definition float_int_fits (z : Z) : bool :=
  match binary_normalize prec emax z 0 false with
  | S754_zero _ | S754_finite _ _ _ => true
  | S754_infinity _ | S754_nan => false
  end.

(** [x < z] for a float [x] and an int [z]: the two are compared by value,
    the int is not rounded; a NaN is below nothing. *)
Definition float_lt_int (x : float) (z : Z) : bool :=
  match Prim2SF x with
  | S754_zero _ => 0 <? z
  | S754_infinity negative => negative
  | S754_nan => false
  | S754_finite negative m e =>
      let n := if negative then Z.neg m else Z.pos m in
      if 0 <=? e then n * 2 ^ e <? z else n <? z * 2 ^ (- e)
  end.

#[export] Instance float_arith : Arith float := {|
  int_fits := float_int_fits;
  of_int := float_of_int;
  nlt_int := float_lt_int;
  nadd := PrimFloat.add;
  nsub := PrimFloat.sub;
  nmul := PrimFloat.mul;
  ndiv := PrimFloat.div;
  nltb := PrimFloat.ltb;
  nleb := PrimFloat.leb;
|}.

(** A float that is a number: neither an infinity nor a NaN. *)
Definition float_is_finite (x : float) : bool :=
  match Prim2SF x with
  | S754_zero _ | S754_finite _ _ _ => true
  | S754_infinity _ | S754_nan => false
  end.

(** ** Text layout

    The pieces of Python's format mini-language the receipt uses.  Strings
    are byte strings here; [upper] is the ASCII part of [str.upper]. *)

(** [n] times the character [c]: the fill of a padded field. *)
Fixpoint repeat_char (c : ascii) (n : nat) : string :=
  match n with
  | O => ""
  | S n' => String c (repeat_char c n')
  end.

(** [s * n] *)
Fixpoint repeat_string (s : string) (n : nat) : string :=
  match n with
  | O => ""
  | S n' => s +:+ repeat_string s n'
  end.

Definition space : ascii := Ascii.ascii_of_nat 32.
Definition newline : string := String (Ascii.ascii_of_nat 10) "".

(** [format(s, '<w')] *)
Definition ljust (w : nat) (s : string) : string :=
  s +:+ repeat_char space (w - String.length s).

(** [format(s, '>w')] *)
Definition rjust (w : nat) (s : string) : string :=
  repeat_char space (w - String.length s) +:+ s.

(** [format(s, '^w')]: the odd space goes to the right. *)
Definition center (w : nat) (s : string) : string :=
  let pad := (w - String.length s)%nat in
  let left := (pad / 2)%nat in
  repeat_char space left +:+ s +:+ repeat_char space (pad - left).

(** [s[:n]] *)
Definition take_chars (n : nat) (s : string) : string := String.substring 0 n s.

Definition upper_char (c : ascii) : ascii :=
  let n := Ascii.nat_of_ascii c in
  if ((97 <=? n) && (n <=? 122))%nat then Ascii.ascii_of_nat (n - 32) else c.

Fixpoint upper (s : string) : string :=
  match s with
  | EmptyString => EmptyString
  | String c s' => String (upper_char c) (upper s')
  end.

(** ['\n'.join(lines)] *)
Definition join_lines (lines : list string) : string :=
  String.concat newline lines.

Definition CURRENCY_SYMBOL : string := "Rs.".
Definition RECEIPT_FOLDER : string := "receipts".

Section Model.

Context {num : Type} `{!Arith num} `{!Show num}.

(** ** Data model *)

(** An entry of [products.json]: [{'name': ..., 'price': ...}]. *)
Record Product := {
  product_name : string;
  price : num;
}.

(** An entry of [inventory.json]: [{'quantity': ...}]. *)
Record StockEntry := {
  stock_quantity : num;
}.

(** A value of [self.cart]. *)
Record CartLine := {
  name : string;
  unit_price : num;
  quantity : num;
  line_total : num;
  is_weighted : bool;
}.

(** [self.cart] is a Python dict: keys are unique and kept in insertion
    order, which the cart display, the receipt and the sales log follow. *)
Definition Cart : Type := list (string * CartLine).

(** A [log_entry] of [log_sale]. *)
Record SaleRecord := {
  log_timestamp : string;
  log_barcode : string;
  log_name : string;
  log_quantity : num;
  log_line_total : num;
  log_is_weighted : bool;
}.

(** The text of a Tk entry as [float()] reads it: [Blank] is the empty
    string, [Garbage] a non-empty string [float()] rejects with
    [ValueError], [Typed x] a string it parses to [x]. *)
Inductive entry :=
  | Blank
  | Garbage
  | Typed (x : num).

(** The files.  [load_data] gives the empty dict for a missing or corrupt
    [products.json] or [inventory.json], so these two are the dict that loads.
    [sales_log_db] is [Some l] when [load_data] gives the list [l] (the empty
    list for a missing or corrupt file) and [None] when the file holds JSON
    that is no list.  [receipt_files] maps a path under [receipts/] to the
    text written there.  Writes are taken to succeed ([save_data] and
    [generate_receipt] report an [IOError] and carry on).  The error box
    [load_data] shows when a file is corrupt is not among the [signal]s
    below: what is said of the boxes of an operation is said of the others. *)
Record Disk := {
  products_db : gmap string Product;
  inventory_db : gmap string StockEntry;
  sales_log_db : option (list SaleRecord);
  receipt_files : gmap string string;
}.

(** The attributes of [POSFrame] the engine uses, the two entries it reads
    back ([discount_entry], [received_entry]), the shop name of the controller
    and the files.  The entries of the add forms ([barcode_entry],
    [unit_quantity_entry], [weight_barcode_entry], [weight_entry]) are not
    part of it: their text is an argument of the call that reads it. *)
Record State := {
  products : gmap string Product;
  inventory : gmap string StockEntry;
  cart : Cart;
  subtotal : num;
  final_total : num;
  discount_entry : entry;
  received_entry : entry;
  shop_name : string;
  disk : Disk;
}.

(** The message boxes of the billing screen, under the names the
    specification gives them. *)
Inductive signal :=
  | InvalidQuantity            (* "Invalid quantity. Must be a positive whole number." *)
  | UnknownProduct             (* "Product not found." / "Weighted product not found." *)
  | InsufficientStock          (* "Not enough ... in stock." *)
  | InvalidWeight              (* "Invalid weight. Please enter a number." *)
  | NotWeighted                (* "This is not a weighted item barcode ..." *)
  | WeightNotPositive          (* "Weight must be positive." *)
  | NothingSelected            (* "Please select an item to remove." *)
  | LineNotFound               (* "Invalid selection." *)
  | EmptyCart                  (* "Cart is empty." *)
  | InsufficientPayment        (* "Amount received ... is less than the total due ..." *)
  | NegativeStockWarning (item_name : string)
  | CriticalInventoryMismatch (item_name : string)
  | CheckoutComplete (receipt : option string).

(** Exceptions no handler of the program catches. *)
Inductive exn :=
  | ValueError
  | OverflowError.

(** How a call of [scan_item] or of [checkout] ends: it returns, having
    shown [shown], or an exception leaves it, no box shown; [st] is the
    state it leaves. *)
Inductive outcome :=
  | Returned (shown : list signal) (st : State)
  | Raised (e : exn) (st : State).

(** The state a call leaves, however it ends. *)
Definition state_of (o : outcome) : State :=
  match o with
  | Returned _ st | Raised _ st => st
  end.

(** The message boxes a call has shown. *)
Definition shown_of (o : outcome) : list signal :=
  match o with
  | Returned shown _ => shown
  | Raised _ _ => []
  end.

(** ** The cart as a dict *)

(** [self.cart.get(barcode)] *)
Fixpoint cart_get (barcode : string) (c : Cart) : option CartLine :=
  match c with
  | [] => None
  | (k, v) :: c' => if decide (k = barcode) then Some v else cart_get barcode c'
  end.

(** [self.cart[barcode] = v]: in place for a key that is there, at the end
    for a new one. *)
Fixpoint cart_set (barcode : string) (v : CartLine) (c : Cart) : Cart :=
  match c with
  | [] => [(barcode, v)]
  | (k, x) :: c' =>
      if decide (k = barcode) then (k, v) :: c' else (k, x) :: cart_set barcode v c'
  end.

(** [del self.cart[barcode]] *)
Fixpoint cart_del (barcode : string) (c : Cart) : Cart :=
  match c with
  | [] => []
  | (k, x) :: c' =>
      if decide (k = barcode) then c' else (k, x) :: cart_del barcode c'
  end.

(** ** Loading and saving *)

(** [POSFrame.refresh_data]: both dicts are read again from the files. *)
Definition refresh_data (st : State) : State :=
  {| products := products_db (disk st);
     inventory := inventory_db (disk st);
     cart := cart st;
     subtotal := subtotal st;
     final_total := final_total st;
     discount_entry := discount_entry st;
     received_entry := received_entry st;
     shop_name := shop_name st;
     disk := disk st |}.

(** [save_data(INVENTORY_DB, data)] *)
Definition save_inventory (data : gmap string StockEntry) (d : Disk) : Disk :=
  {| products_db := products_db d;
     inventory_db := data;
     sales_log_db := sales_log_db d;
     receipt_files := receipt_files d |}.

(** The [log_entry] built for one cart item. *)
Definition log_entry (sale_time : string) (kv : string * CartLine) : SaleRecord :=
  {| log_timestamp := sale_time;
     log_barcode := kv.1;
     log_name := name kv.2;
     log_quantity := quantity kv.2;
     log_line_total := line_total kv.2;
     log_is_weighted := is_weighted kv.2 |}.

(** [log_sale(cart)]; [sale_time] is the one reading of the clock it takes. *)
Definition log_sale (sale_time : string) (c : Cart) (d : Disk) : Disk :=
  let sales_log := default [] (sales_log_db d) in
  {| products_db := products_db d;
     inventory_db := inventory_db d;
     sales_log_db := Some (sales_log ++ map (log_entry sale_time) c);
     receipt_files := receipt_files d |}.

(** ** Totals *)

(** [sum(item['line_total'] for item in self.cart.values())] *)
Definition cart_sum (c : Cart) : num :=
  fold_left (λ acc kv, nadd acc (line_total kv.2)) c (of_int 0).

(** [0 <= discount_percent <= 100] *)
Definition in_range (p : num) : bool :=
  nleb (of_int 0) p && nleb p (of_int 100).

(** The percent [update_total] computes with, and the entry it leaves: an
    unparseable entry counts as 0 and stays, an out-of-range one counts as
    0 and is rewritten to "0". *)
Definition read_discount (e : entry) : num * entry :=
  match e with
  | Typed p => if in_range p then (p, e) else (of_int 0, Typed (of_int 0))
  | Blank | Garbage => (of_int 0, e)
  end.

(** [POSFrame.update_total] *)
Definition update_total (st : State) : State :=
  let sub := cart_sum (cart st) in
  let '(discount_percent, e) := read_discount (discount_entry st) in
  let discount_amount := nmul sub (ndiv discount_percent (of_int 100)) in
  {| products := products st;
     inventory := inventory st;
     cart := cart st;
     subtotal := sub;
     final_total := nsub sub discount_amount;
     discount_entry := e;
     received_entry := received_entry st;
     shop_name := shop_name st;
     disk := disk st |}.

(** [self.cart = c], the rest as it was. *)
Definition with_cart (c : Cart) (st : State) : State :=
  {| products := products st;
     inventory := inventory st;
     cart := c;
     subtotal := subtotal st;
     final_total := final_total st;
     discount_entry := discount_entry st;
     received_entry := received_entry st;
     shop_name := shop_name st;
     disk := disk st |}.

(** ** Adding to the cart *)

(** [self.inventory.get(barcode, {}).get('quantity', 0)] *)
Definition current_stock (barcode : string) (st : State) : num :=
  from_option stock_quantity (of_int 0) (inventory st !! barcode).

(** [self.cart.get(barcode, {}).get('quantity', 0)] *)
Definition cart_qty (barcode : string) (st : State) : num :=
  from_option quantity (of_int 0) (cart_get barcode (cart st)).

(** The cart line of [scan_item] after the add, its line total recomputed. *)
Definition unit_line (p : Product) (quantity_to_add : Z) (old : option CartLine)
  : CartLine :=
  match old with
  | Some l =>
      let q := nadd (quantity l) (of_int quantity_to_add) in
      {| name := name l; unit_price := unit_price l; quantity := q;
         line_total := nmul (unit_price l) q; is_weighted := is_weighted l |}
  | None =>
      let q := of_int quantity_to_add in
      {| name := product_name p; unit_price := price p; quantity := q;
         line_total := nmul (price p) q; is_weighted := false |}
  end.

(** [current_stock < (cart_qty + quantity_to_add)] of [scan_item].  With a
    line in the cart [cart_qty] is a float: the count is converted and the
    sum is a float sum, and [OverflowError] is raised for a count [float()]
    cannot hold ([None] below).  Without a line [cart_qty] is the int 0, the
    sum is the count itself, and the stock is compared with that int. *)
Definition over_stock (barcode : string) (quantity_to_add : Z) (st : State)
  : option bool :=
  match cart_get barcode (cart st) with
  | Some l =>
      if int_fits quantity_to_add
      then Some (nltb (current_stock barcode st)
                      (nadd (quantity l) (of_int quantity_to_add)))
      else None
  | None => Some (nlt_int (current_stock barcode st) quantity_to_add)
  end.

(** [POSFrame.scan_item] (the "Add Unit" button).  [qty] is what
    [int(self.unit_quantity_entry.get())] gives, [None] for [ValueError].
    [OverflowError] leaves the call from the stock comparison or, past it,
    from [float(quantity_to_add)]; nothing has been written by then. *)
Definition scan_item (barcode : string) (qty : option Z) (st : State) : outcome :=
  if decide (barcode = "") then Returned [] st else
  match qty with
  | None => Returned [InvalidQuantity] st
  | Some quantity_to_add =>
      if quantity_to_add <=? 0 then Returned [InvalidQuantity] st else
      match products st !! barcode with
      | None => Returned [UnknownProduct] st
      | Some product =>
          match over_stock barcode quantity_to_add st with
          | None => Raised OverflowError st
          | Some true => Returned [InsufficientStock] st
          | Some false =>
              if int_fits quantity_to_add then
                let l := unit_line product quantity_to_add
                           (cart_get barcode (cart st)) in
                Returned [] (update_total (with_cart (cart_set barcode l (cart st)) st))
              else Raised OverflowError st
          end
      end
  end.

(** The cart line of [add_weighted_item] after the add: the price of the
    added weight, at the catalog price, is added to the line total. *)
Definition weighted_line (p : Product) (weight : num) (old : option CartLine)
  : CartLine :=
  let line_price := nmul (price p) weight in
  match old with
  | Some l =>
      {| name := name l; unit_price := unit_price l;
         quantity := nadd (quantity l) weight;
         line_total := nadd (line_total l) line_price;
         is_weighted := is_weighted l |}
  | None =>
      {| name := product_name p; unit_price := price p; quantity := weight;
         line_total := line_price; is_weighted := true |}
  end.

(** [barcode.startswith("W-")] *)
Definition is_weighted_barcode (barcode : string) : bool :=
  String.prefix "W-" barcode.

(** [POSFrame.add_weighted_item] (the "Add Weight" button).  [weight] is
    what [float(self.weight_entry.get())] gives, [None] for [ValueError]. *)
Definition add_weighted_item (barcode : string) (weight : option num) (st : State)
  : list signal * State :=
  match weight with
  | None => ([InvalidWeight], st)
  | Some w =>
      if negb (is_weighted_barcode barcode) then ([NotWeighted], st) else
      match products st !! barcode with
      | None => ([UnknownProduct], st)
      | Some product =>
          if nleb w (of_int 0) then ([WeightNotPositive], st) else
          if nltb (current_stock barcode st) (nadd (cart_qty barcode st) w)
          then ([InsufficientStock], st)
          else
            let l := weighted_line product w (cart_get barcode (cart st)) in
            ([], update_total (with_cart (cart_set barcode l (cart st)) st))
      end
  end.

(** ** Removing and clearing *)

(** [POSFrame.remove_selected_item].  [selection] is the first index of
    [self.cart_list.curselection()], [None] when nothing is selected;
    [confirmed] is the answer to "Confirm Removal". *)
Definition remove_selected_item (selection : option nat) (confirmed : bool)
    (st : State) : list signal * State :=
  match selection with
  | None => ([NothingSelected], st)
  | Some selected_index =>
      match (cart st).*1 !! selected_index with
      | None => ([LineNotFound], st)
      | Some barcode_to_remove =>
          if confirmed
          then ([], update_total (with_cart (cart_del barcode_to_remove (cart st)) st))
          else ([], st)
      end
  end.

(** [POSFrame.clear_cart] *)
Definition clear_cart (st : State) : State :=
  update_total
    {| products := products st;
       inventory := inventory st;
       cart := [];
       subtotal := subtotal st;
       final_total := final_total st;
       discount_entry := Typed (of_int 0);
       received_entry := Blank;
       shop_name := shop_name st;
       disk := disk st |}.

(** ** The receipt *)

(** The quantity column of a cart line. *)
Definition qty_display (item : CartLine) : string :=
  if is_weighted item then fmt_fixed 2 (quantity item) +:+ " kg"
  else fmt_fixed 0 (quantity item).

(** One line of the item table. *)
Definition receipt_item (item : CartLine) : string :=
  let amount_display := CURRENCY_SYMBOL +:+ fmt_fixed 2 (line_total item) in
  ljust 8 (qty_display item) +:+ ljust 24 (take_chars 24 (name item))
    +:+ rjust 8 amount_display.

(** [receipt_lines] of [generate_receipt].  [date_time] is the clock read
    for the "Date/Time:" line, already formatted. *)
Definition receipt_lines (st : State) (final discount_amount discount_percent
    received_amount change_amount : num) (date_time : string) : list string :=
  let rule s := repeat_string s 50 in
  [ rule "=";
    " " +:+ center 38 (upper (shop_name st));
    rule "=";
    "Date/Time: " +:+ date_time;
    rule "-";
    ljust 8 "QTY" +:+ ljust 24 "ITEM" +:+ rjust 8 "AMOUNT";
    rule "-" ]
  ++ map (λ kv, receipt_item kv.2) (cart st)
  ++ [ rule "-";
       ljust 30 "Subtotal:" +:+ CURRENCY_SYMBOL +:+ rjust 8 (fmt_fixed 2 (subtotal st));
       "Discount (" +:+ fmt_fixed 0 discount_percent +:+ "%): -" +:+ CURRENCY_SYMBOL
         +:+ rjust 8 (fmt_fixed 2 discount_amount);
       ljust 30 "TOTAL:" +:+ CURRENCY_SYMBOL +:+ rjust 8 (fmt_fixed 2 final);
       rule "-";
       ljust 30 "Amount Paid:" +:+ CURRENCY_SYMBOL +:+ rjust 8 (fmt_fixed 2 received_amount);
       ljust 30 "Change Given:" +:+ CURRENCY_SYMBOL +:+ rjust 8 (fmt_fixed 2 change_amount);
       rule "=";
       "Thank you for shopping! Come Again!";
       rule "=" ].

(** The text [generate_receipt] writes. *)
Definition receipt_document (st : State) (final discount_amount discount_percent
    received_amount change_amount : num) (date_time : string) : string :=
  join_lines (receipt_lines st final discount_amount discount_percent
                received_amount change_amount date_time).

(** The two readings of the clock in [generate_receipt], formatted:
    [file_stamp] with "%Y%m%d_%H%M%S" for the file name, [date_time] with
    "%Y-%m-%d %H:%M:%S" for the document. *)
Record ReceiptClock := {
  file_stamp : string;
  date_time : string;
}.

(** [POSFrame.generate_receipt]: the path written and the files after. *)
Definition generate_receipt (st : State) (final discount_amount discount_percent
    received_amount change_amount : num) (clock : ReceiptClock)
  : option string * Disk :=
  let filepath := RECEIPT_FOLDER +:+ "/" +:+ "receipt_" +:+ file_stamp clock +:+ ".txt" in
  let text := receipt_document st final discount_amount discount_percent
                received_amount change_amount (date_time clock) in
  (Some filepath,
   {| products_db := products_db (disk st);
      inventory_db := inventory_db (disk st);
      sales_log_db := sales_log_db (disk st);
      receipt_files := <[filepath := text]> (receipt_files (disk st)) |}).

(** ** Checkout *)

(** The files replaced by [d], the rest as it was. *)
Definition with_disk (d : Disk) (st : State) : State :=
  {| products := products st;
     inventory := inventory st;
     cart := cart st;
     subtotal := subtotal st;
     final_total := final_total st;
     discount_entry := discount_entry st;
     received_entry := received_entry st;
     shop_name := shop_name st;
     disk := d |}.

(** [self.inventory = inv], the rest as it was. *)
Definition with_inventory (inv : gmap string StockEntry) (st : State) : State :=
  {| products := products st;
     inventory := inv;
     cart := cart st;
     subtotal := subtotal st;
     final_total := final_total st;
     discount_entry := discount_entry st;
     received_entry := received_entry st;
     shop_name := shop_name st;
     disk := disk st |}.

(** The body of the commit loop for one cart item: the inventory after and
    the message box shown, if any. *)
Definition settle_line (inv : gmap string StockEntry) (kv : string * CartLine)
  : gmap string StockEntry * list signal :=
  let '(barcode, item) := kv in
  match inv !! barcode with
  | Some e =>
      let q := nsub (stock_quantity e) (quantity item) in
      (<[barcode := {| stock_quantity := q |}]> inv,
       if nltb q (of_int 0) then [NegativeStockWarning (name item)] else [])
  | None => (inv, [CriticalInventoryMismatch (name item)])
  end.

(** [for barcode, item in self.cart.items(): ...] of [checkout]. *)
Definition settle_stock (c : Cart) (inv : gmap string StockEntry)
  : gmap string StockEntry * list signal :=
  fold_left (λ acc kv, let r := settle_line acc.1 kv in (r.1, acc.2 ++ r.2))
            c (inv, []).

(** What the operator and the clock give one call of [checkout]. *)
Record CheckoutInput := {
  confirmed : bool;            (* the answer to "Confirm Checkout" *)
  sale_time : string;          (* [datetime.now().isoformat()] in [log_sale] *)
  receipt_clock : ReceiptClock;
}.

(** [float(self.received_entry.get())], 0.0 on [ValueError]. *)
Definition read_received (e : entry) : num :=
  match e with
  | Typed x => x
  | Blank | Garbage => of_int 0
  end.

(** The commit of [checkout], from [log_sale] to [clear_cart]. *)
Definition commit (i : CheckoutInput) (final discount_amount discount_percent
    received_amount change_amount : num) (st : State) : list signal * State :=
  let st1 := with_disk (log_sale (sale_time i) (cart st) (disk st)) st in
  let st2 := refresh_data st1 in
  let '(inv, warnings) := settle_stock (cart st2) (inventory st2) in
  let st3 := with_disk (save_inventory inv (disk st2)) (with_inventory inv st2) in
  let '(filepath, d) := generate_receipt st3 final discount_amount discount_percent
                          received_amount change_amount (receipt_clock i) in
  (warnings ++ [CheckoutComplete filepath], clear_cart (with_disk d st3)).

(** [POSFrame.checkout] *)
Definition checkout (i : CheckoutInput) (st : State) : outcome :=
  match cart st with
  | [] => Returned [EmptyCart] st
  | _ :: _ =>
      let st := update_total st in
      match discount_entry st with
      | Garbage => Raised ValueError st
      | e =>
          let discount_percent := match e with Typed p => p | _ => of_int 0 end in
          let discount_percent :=
            if in_range discount_percent then discount_percent else of_int 0 in
          let discount_amount :=
            nmul (subtotal st) (ndiv discount_percent (of_int 100)) in
          let final := nsub (subtotal st) discount_amount in
          let received_amount := read_received (received_entry st) in
          if nltb received_amount final then Returned [InsufficientPayment] st else
          let change_amount := nsub received_amount final in
          if negb (confirmed i) then Returned [] st else
          let '(shown, st') := commit i final discount_amount discount_percent
                                 received_amount change_amount st in
          Returned shown st'
      end
  end.

(** ** Sequences of adds *)

(** One press of "Add Unit" or of "Add Weight". *)
Inductive add_request :=
  | AddUnit (quantity_to_add : Z)
  | AddWeighted (weight : num).

(** The quantity a request adds to its line. *)
Definition added (r : add_request) : num :=
  match r with
  | AddUnit q => of_int q
  | AddWeighted w => w
  end.

Definition apply_add (barcode : string) (r : add_request) (st : State) : outcome :=
  match r with
  | AddUnit q => scan_item barcode (Some q) st
  | AddWeighted w =>
      let '(shown, st') := add_weighted_item barcode (Some w) st in
      Returned shown st'
  end.

(** The requests [rs] one after the other on [barcode], as long as each
    returns without a message box; [None] as soon as one does not. *)
Fixpoint run_adds (barcode : string) (rs : list add_request) (st : State)
  : option State :=
  match rs with
  | [] => Some st
  | r :: rs' =>
      match apply_add barcode r st with
      | Returned [] st' => run_adds barcode rs' st'
      | _ => None
      end
  end.

(** Along the adds [rs] on a line that holds [acc], every weight added is
    priced at what it adds to the price of the line:
    [x * (acc + w) = x * acc + x * w] at each weighted add, [acc] being the
    quantity the line holds by then. *)
Fixpoint adds_up (x acc : num) (rs : list add_request) : Prop :=
  match rs with
  | [] => True
  | AddUnit q :: rs' => adds_up x (nadd acc (of_int q)) rs'
  | AddWeighted w :: rs' =>
      nmul x (nadd acc w) = nadd (nmul x acc) (nmul x w)
      ∧ adds_up x (nadd acc w) rs'
  end.

(** ** The cart invariant *)

(** Every line's quantity is strictly positive and [self.subtotal] is the
    sum of the line totals. *)
Definition cart_invariant (st : State) : Prop :=
  Forall (λ kv, nltb (of_int 0) (quantity kv.2) = true) (cart st)
  ∧ subtotal st = cart_sum (cart st).

End Model.

(** * The rest of the program

    The functions around the transaction engine: the low-stock check, the
    cart list and the change label of the billing screen, the product form
    of the inventory screen, the bill viewer and the sales chart. *)

Definition LOW_STOCK_THRESHOLD : Z := 20.

(** [abs(x)] and [x == y]. *)
Class ArithSign (num : Type) := {
  nabs : num → num;
  neqb : num → num → bool;
}.

#[export] Instance Qc_sign : ArithSign Qc := {|
  nabs := λ x, if Qc_ltb x (Qc_of_int 0) then Qcopp x else x;
  neqb := λ x y, match Qccompare x y with Eq => true | _ => false end;
|}.

#[export] Instance float_sign : ArithSign float := {|
  nabs := PrimFloat.abs;
  neqb := PrimFloat.eqb;
|}.

Section Screens.

Context {num : Type} `{!Arith num} `{!Show num} `{!ArithSign num}.

(** [check_for_low_stock], over the files it loads: some product of the
    catalog has a quantity below the threshold, a product without ledger
    entry counting as 0. *)
Definition check_for_low_stock (d : Disk (num:=num)) : bool :=
  existsb
    (λ barcode,
       nltb (from_option stock_quantity (of_int 0) (inventory_db d !! barcode))
            (of_int LOW_STOCK_THRESHOLD))
    (map_to_list (products_db d)).*1.

(** One row of the cart list. *)
Definition cart_row (item : CartLine (num:=num)) : string :=
  ljust 8 (qty_display item) +:+ " " +:+ ljust 30 (name item) +:+ " "
    +:+ CURRENCY_SYMBOL +:+ rjust 8 (fmt_fixed 2 (line_total item)).

(** [POSFrame.update_cart_display]: the rows of [self.cart_list]. *)
Definition update_cart_display (st : State (num:=num)) : list string :=
  map (λ kv, cart_row kv.2) (cart st).

(** What [self.change_label] shows. *)
Inductive change_label :=
  | AmountDue (amount : num)   (* "Amount Due: Rs.<amount>", red *)
  | NoChange                   (* "Change: Rs.0.00", green *)
  | Change (amount : num).     (* "Change: Rs.<amount>", green *)

(** [POSFrame.update_change] *)
Definition update_change (st : State (num:=num)) : change_label :=
  let received_amount := read_received (received_entry st) in
  let change := nsub received_amount (final_total st) in
  if nltb change (of_int 0) && nltb (of_int 0) received_amount
  then AmountDue (nabs change)
  else if nltb change (of_int 0) && neqb received_amount (of_int 0)
  then NoChange
  else Change change.

End Screens.

(** ** The inventory screen *)

Module InventoryFrame.

Section Frame.

Context {num : Type} `{!Arith num}.

(** [self.products] and [self.inventory] of the inventory screen. *)
Record Frame := {
  frame_products : gmap string (Product (num:=num));
  frame_inventory : gmap string (StockEntry (num:=num));
}.

(** The message boxes of the screen. *)
Inductive message :=
  | NumbersRequired            (* "Price and Quantity must be numbers." *)
  | BarcodeAndNameRequired     (* "Barcode and Name are required." *)
  | ProductUpdated (name : string) (new_quantity : num)
  | NothingToDelete            (* "Load a product or enter a barcode to delete." *)
  | ProductNotFound            (* "Product not found." *)
  | ProductDeleted (barcode : string).

(** [InventoryFrame.refresh_data]: both dicts are read again from the
    files (the list box it then fills is left out). *)
Definition refresh_data (d : Disk (num:=num)) : Frame :=
  {| frame_products := products_db d; frame_inventory := inventory_db d |}.

(** [save_data(PRODUCTS_DB, p)] and [save_data(INVENTORY_DB, i)] *)
Definition save_catalog (p : gmap string Product) (i : gmap string StockEntry)
    (d : Disk (num:=num)) : Disk :=
  {| products_db := p;
     inventory_db := i;
     sales_log_db := sales_log_db d;
     receipt_files := receipt_files d |}.

(** [InventoryFrame.add_update_product].  [barcode] and [name] are the
    entries after [strip()]; [price] and [quantity] what [float()] gives
    for theirs, [None] for [ValueError]. *)
Definition add_update_product (barcode name : string) (price quantity : option num)
    (fr : Frame) (d : Disk (num:=num)) : list message * Frame * Disk :=
  match price, quantity with
  | Some price, Some quantity_to_add =>
      if bool_decide (barcode = "") || bool_decide (name = "")
      then ([BarcodeAndNameRequired], fr, d)
      else
        let current_quantity :=
          from_option stock_quantity (of_int 0) (frame_inventory fr !! barcode) in
        let new_quantity := nadd current_quantity quantity_to_add in
        let p := <[barcode := {| product_name := name; price := price |}]>
                   (frame_products fr) in
        let i := <[barcode := {| stock_quantity := new_quantity |}]>
                   (frame_inventory fr) in
        let d := save_catalog p i d in
        ([ProductUpdated name new_quantity], refresh_data d, d)
  | _, _ => ([NumbersRequired], fr, d)
  end.

(** [InventoryFrame.delete_product].  [barcode] is the entry as typed;
    [confirmed] is the answer to "Confirm Delete". *)
Definition delete_product (barcode : string) (confirmed : bool)
    (fr : Frame) (d : Disk (num:=num)) : list message * Frame * Disk :=
  if bool_decide (barcode = "") then ([NothingToDelete], fr, d) else
  match frame_products fr !! barcode with
  | None => ([ProductNotFound], fr, d)
  | Some _ =>
      if negb confirmed then ([], fr, d) else
      let d := save_catalog (delete barcode (frame_products fr))
                            (delete barcode (frame_inventory fr)) d in
      ([ProductDeleted barcode], refresh_data d, d)
  end.

End Frame.

End InventoryFrame.

(** ** The bill viewer *)

Module BillHistoryFrame.

Section Frame.

Context {num : Type}.

(** What the text box shows for a selected bill. *)
Inductive bill_view :=
  | BillText (content : string)
  | BillError.                 (* "Error reading file ..." *)

(** [BillHistoryFrame.load_selected_bill] for the list entry [filename]. *)
Definition load_selected_bill (filename : string) (d : Disk (num:=num))
  : bill_view :=
  match receipt_files d !! (RECEIPT_FOLDER +:+ "/" +:+ filename) with
  | Some content => BillText content
  | None => BillError
  end.

End Frame.

End BillHistoryFrame.

(** ** The sales chart *)

Module AnalyticsFrame.

Section Frame.

Context {num : Type} `{!Arith num}.

(** [product_sales] is a dict from product name to quantity, in the order
    the names are first met. *)
Fixpoint sales_get (name : string) (ps : list (string * num)) : option num :=
  match ps with
  | [] => None
  | (k, v) :: ps' => if decide (k = name) then Some v else sales_get name ps'
  end.

Fixpoint sales_set (name : string) (v : num) (ps : list (string * num))
  : list (string * num) :=
  match ps with
  | [] => [(name, v)]
  | (k, x) :: ps' =>
      if decide (k = name) then (k, v) :: ps' else (k, x) :: sales_set name v ps'
  end.

(** The aggregation loop: [product_sales[name] = product_sales.get(name, 0)
    + quantity] for every sale. *)
Definition product_sales (sales : list (SaleRecord (num:=num)))
  : list (string * num) :=
  fold_left
    (λ ps sale,
       sales_set (log_name sale)
         (nadd (default (of_int 0) (sales_get (log_name sale) ps)) (log_quantity sale))
         ps)
    sales [].

(** [item] goes before the first entry whose quantity is not above its
    own. *)
Fixpoint insert_desc (item : string * num) (sorted : list (string * num))
  : list (string * num) :=
  match sorted with
  | [] => [item]
  | y :: rest =>
      if nltb item.2 y.2 then y :: insert_desc item rest else item :: y :: rest
  end.

(** [sorted(items, key=lambda item: item[1], reverse=True)] for quantities
    that are totally ordered: largest first, equal quantities in the order
    they had. *)
Definition sorted_sales (items : list (string * num)) : list (string * num) :=
  foldr insert_desc [] items.

(** No entry is followed by one with a higher quantity. *)
Definition descending (ps : list (string * num)) : Prop :=
  ∀ (i : nat) a b, ps !! i = Some a → ps !! S i = Some b → nltb a.2 b.2 = false.

(** What the screen shows. *)
Inductive chart :=
  | NoData                     (* "No sales data found." *)
  | Bars (products : list string) (quantities : list num).

(** [AnalyticsFrame.refresh_data] *)
Definition refresh_data (d : Disk (num:=num)) : chart :=
  match sales_log_db d with
  | None | Some [] => NoData
  | Some sales =>
      match product_sales sales with
      | [] => NoData
      | ps => Bars (sorted_sales ps).*1 (sorted_sales ps).*2
      end
  end.

End Frame.

End AnalyticsFrame.

(** * Sample data

    A small shop, in exact decimals and in binary64, for the scenarios the
    properties below are run on. *)

Module Sample.

(** The decimal [n/d]. *)
Definition dec (n : Z) (d : positive) : Qc := Q2Qc (n # d).

Definition milk : Product (num:=Qc) := {| product_name := "Milk"; price := dec 50 1 |}.
Definition apple : Product (num:=Qc) := {| product_name := "Apple"; price := dec 80 1 |}.

Definition shop_files : Disk (num:=Qc) := {|
  products_db := {[ "1001" := milk; "W-APPLE" := apple ]};
  inventory_db := {[ "1001" := {| stock_quantity := dec 100 1 |};
                     "W-APPLE" := {| stock_quantity := dec 10 1 |} ]};
  sales_log_db := Some [];
  receipt_files := ∅;
|}.

(** The billing screen as [POSFrame.__init__] leaves it over [files]. *)
Definition opened (files : Disk (num:=Qc)) : State (num:=Qc) :=
  refresh_data {|
    products := ∅; inventory := ∅; cart := [];
    subtotal := of_int 0; final_total := of_int 0;
    discount_entry := Typed (of_int 0); received_entry := Blank;
    shop_name := "Simple Grocery Shop"; disk := files |}.

Definition idle : State (num:=Qc) := opened shop_files.

(** The operator types into the discount and the received entry. *)
Definition typed (discount received : entry (num:=Qc)) (st : State (num:=Qc))
  : State (num:=Qc) :=
  {| products := products st; inventory := inventory st; cart := cart st;
     subtotal := subtotal st; final_total := final_total st;
     discount_entry := discount; received_entry := received;
     shop_name := shop_name st; disk := disk st |}.

Definition at_ten : CheckoutInput := {|
  confirmed := true;
  sale_time := "2024-01-01T10:00:00.000001";
  receipt_clock := {| file_stamp := "20240101_100000";
                      date_time := "2024-01-01 10:00:00" |};
|}.

(** Three milk in the cart. *)
Definition three_milk : State (num:=Qc) := state_of (scan_item "1001" (Some 3) idle).

(** One milk in the cart, 40.00 received for the 50.00 due. *)
Definition short_paid : State (num:=Qc) :=
  typed (Typed (of_int 0)) (Typed (dec 40 1)) (state_of (scan_item "1001" (Some 1) idle)).

(** One milk in the cart and a discount entry [float()] cannot read. *)
Definition unreadable_discount : State (num:=Qc) :=
  typed Garbage (Typed (dec 50 1)) (state_of (scan_item "1001" (Some 1) idle)).

(** A cart whose lines meet a ledger that changed since they were added:
    only 1 kg of apples is left, and the bread (a third line) is gone from
    the ledger. *)
Definition bread_line : CartLine (num:=Qc) := {|
  name := "Bread"; unit_price := dec 30 1; quantity := dec 2 1;
  line_total := dec 60 1; is_weighted := false |}.

Definition changed_ledger : State (num:=Qc) :=
  let st := (add_weighted_item "W-APPLE" (Some (dec 5 2))
               (state_of (scan_item "1001" (Some 3) idle))).2 in
  let st := with_cart (cart st ++ [("2002", bread_line)]) st in
  with_disk
    {| products_db := products_db shop_files;
       inventory_db := {[ "1001" := {| stock_quantity := dec 100 1 |};
                          "W-APPLE" := {| stock_quantity := dec 1 1 |} ]};
       sales_log_db := Some [];
       receipt_files := ∅ |}
    (update_total st).

(** The screen opened while the ledger had no milk, the file restocked to
    10 from outside afterwards. *)
Definition restocked_outside : State (num:=Qc) :=
  with_disk
    {| products_db := products_db shop_files;
       inventory_db := {[ "1001" := {| stock_quantity := dec 10 1 |} ]};
       sales_log_db := Some [];
       receipt_files := ∅ |}
    (opened {| products_db := products_db shop_files;
               inventory_db := ∅;
               sales_log_db := Some [];
               receipt_files := ∅ |}).

(** Five milk in the cart, five in stock. *)
Definition five_of_five : State (num:=Qc) :=
  state_of
    (scan_item "1001" (Some 5)
       (opened {| products_db := products_db shop_files;
                  inventory_db := {[ "1001" := {| stock_quantity := dec 5 1 |} ]};
                  sales_log_db := Some [];
                  receipt_files := ∅ |})).

(** 2.5 kg of apples in the cart. *)
Definition weighed_apples : State (num:=Qc) :=
  (add_weighted_item "W-APPLE" (Some (dec 5 2)) idle).2.

(** The same three milk under another barcode, in another shop's files. *)
Definition three_milk_elsewhere : State (num:=Qc) :=
  {| products := ∅; inventory := ∅;
     cart := [("5005", {| name := "Milk"; unit_price := dec 50 1;
                          quantity := of_int 3;
                          line_total := nmul (dec 50 1) (of_int 3);
                          is_weighted := false |})];
     subtotal := subtotal three_milk; final_total := of_int 0;
     discount_entry := Blank; received_entry := Garbage;
     shop_name := "Simple Grocery Shop";
     disk := {| products_db := ∅; inventory_db := ∅;
                sales_log_db := None; receipt_files := ∅ |} |}.

(** The shop in binary64. *)
Definition float_idle : State (num:=float) := {|
  products := {[ "W-APPLE" := {| product_name := "Apple"; price := of_int 80 |} ]};
  inventory := {[ "W-APPLE" := {| stock_quantity := of_int 10 |} ]};
  cart := []; subtotal := of_int 0; final_total := of_int 0;
  discount_entry := Typed (of_int 0); received_entry := Blank;
  shop_name := "Simple Grocery Shop";
  disk := {| products_db := {[ "W-APPLE" := {| product_name := "Apple";
                                                price := of_int 80 |} ]};
             inventory_db := {[ "W-APPLE" := {| stock_quantity := of_int 10 |} ]};
             sales_log_db := Some []; receipt_files := ∅ |} |}.

(** Milk and apples in binary64, five milk and ten kg of apples in stock. *)
Definition float_shop : State (num:=float) :=
  let catalog : gmap string (Product (num:=float)) :=
    {[ "1001" := {| product_name := "Milk"; price := of_int 50 |};
       "W-APPLE" := {| product_name := "Apple"; price := of_int 80 |} ]} in
  let ledger : gmap string (StockEntry (num:=float)) :=
    {[ "1001" := {| stock_quantity := of_int 5 |};
       "W-APPLE" := {| stock_quantity := of_int 10 |} ]} in
  {| products := catalog; inventory := ledger;
     cart := []; subtotal := of_int 0; final_total := of_int 0;
     discount_entry := Typed (of_int 0); received_entry := Blank;
     shop_name := "Simple Grocery Shop";
     disk := {| products_db := catalog; inventory_db := ledger;
                sales_log_db := Some []; receipt_files := ∅ |} |}.

(** The weights [float("0.1")] and [float("0.2")]. *)
Definition tenth : float := 0x1.999999999999ap-4%float.
Definition fifth : float := 0x1.999999999999ap-3%float.

(** The operator types into the discount entry. *)
Definition float_discount (e : entry (num:=float)) (st : State (num:=float))
  : State (num:=float) :=
  {| products := products st; inventory := inventory st; cart := cart st;
     subtotal := subtotal st; final_total := final_total st;
     discount_entry := e; received_entry := received_entry st;
     shop_name := shop_name st; disk := disk st |}.

(** One milk in the cart. *)
Definition float_one_milk : State (num:=float) :=
  state_of (scan_item "1001" (Some 1) float_shop).

(** A count of 401 digits, more than [float()] can hold. *)
Definition huge_count : Z := 10 ^ 400.

(** One milk in the cart, 40.00 received for the 50.00 due, and a discount
    entry [float()] cannot read. *)
Definition short_paid_unreadable : State (num:=Qc) :=
  typed Garbage (Typed (dec 40 1)) (state_of (scan_item "1001" (Some 1) idle)).

(** Three milk and 2.5 kg of apples in the cart. *)
Definition milk_and_apples : State (num:=Qc) :=
  (add_weighted_item "W-APPLE" (Some (dec 5 2)) three_milk).2.

(** Three milk in the cart, 10 percent discount, 200.00 received. *)
Definition paying_three_milk : State (num:=Qc) :=
  typed (Typed (dec 10 1)) (Typed (dec 200 1)) three_milk.

(** The inventory screen over the shop's files. *)
Definition stock_room : InventoryFrame.Frame (num:=Qc) :=
  InventoryFrame.refresh_data shop_files.

(** A sales log of three sales: milk, apples, milk again. *)
Definition sale (n : string) (q : Qc) : SaleRecord (num:=Qc) :=
  {| log_timestamp := "2024-01-01T10:00:00"; log_barcode := n; log_name := n;
     log_quantity := q; log_line_total := q; log_is_weighted := false |}.

Definition logged_files : Disk (num:=Qc) := {|
  products_db := ∅; inventory_db := ∅;
  sales_log_db := Some [sale "Milk" (dec 3 1); sale "Apple" (dec 5 2);
                        sale "Milk" (dec 4 1)];
  receipt_files := ∅;
|}.

(** 5.00 received, in the minus, for three milk. *)
Definition refund_typed : State (num:=Qc) :=
  update_total (typed (Typed (of_int 0)) (Typed (dec (-5) 1)) three_milk).

End Sample.

(** * Properties *)

Section Properties.

Context {num : Type} `{!Arith num} `{!Show num}.

Implicit Types (c : Cart (num:=num)) (st : State (num:=num)).
Implicit Types (inv : gmap string (StockEntry (num:=num))).

(** ** The cart as a dict *)

Lemma cart_get_set_eq b v c : cart_get b (cart_set b v c) = Some v.
Proof.
  induction c as [|[k x] c IH]; cbn [cart_set cart_get].
  - by case_decide.
  - destruct (decide (k = b)) as [->|Hne]; cbn [cart_get]; by case_decide.
Qed.

Lemma cart_get_set_ne b b' v c :
  b ≠ b' → cart_get b' (cart_set b v c) = cart_get b' c.
Proof.
  intros Hne. induction c as [|[k x] c IH]; cbn [cart_set cart_get].
  - by case_decide.
  - destruct (decide (k = b)) as [->|Hkb]; cbn [cart_get];
      repeat case_decide; congruence.
Qed.

Lemma cart_get_None b c : cart_get b c = None ↔ b ∉ c.*1.
Proof.
  induction c as [|[k x] c IH]; cbn [cart_get fmap list_fmap fst].
  - split; [intros _; apply not_elem_of_nil | done].
  - rewrite not_elem_of_cons. case_decide as Hk.
    + split; [done | intros [? _]; congruence].
    + rewrite IH. split; [intros ?; split; [congruence | done] | intros [_ ?]; done].
Qed.

Lemma cart_get_Some_elem b l c : cart_get b c = Some l → (b, l) ∈ c.
Proof.
  induction c as [|[k x] c IH]; cbn [cart_get]; [done |].
  case_decide as Hk.
  - intros [= ->]. subst k. apply list_elem_of_here.
  - intros H. apply list_elem_of_further, IH, H.
Qed.

Lemma cart_elem_get b l c : NoDup c.*1 → (b, l) ∈ c → cart_get b c = Some l.
Proof.
  induction c as [|[k x] c IH]; cbn [cart_get fmap list_fmap fst]; intros Hnd Hin.
  - by apply elem_of_nil in Hin.
  - apply NoDup_cons in Hnd as [Hk Hnd]. apply elem_of_cons in Hin as [[= <- <-]|Hin].
    + by case_decide.
    + case_decide as Hkb; [| by apply IH].
      exfalso. apply Hk. subst k. apply list_elem_of_fmap. by exists (b, l).
Qed.

Lemma cart_set_keys b v c :
  (cart_set b v c).*1 = if decide (b ∈ c.*1) then c.*1 else c.*1 ++ [b].
Proof.
  induction c as [|[k x] c IH]; cbn [cart_set fmap list_fmap fst app].
  - rewrite decide_False; [done | apply not_elem_of_nil].
  - destruct (decide (k = b)) as [->|Hne]; cbn [fmap list_fmap fst].
    + rewrite decide_True; [done | apply list_elem_of_here].
    + fold (fmap (M:=list) (@fst string (CartLine (num:=num)))).
      rewrite IH. destruct (decide (b ∈ c.*1)) as [Hin|Hnin].
      * rewrite decide_True; [done | by apply list_elem_of_further].
      * rewrite decide_False; [done |].
        rewrite not_elem_of_cons. split; [congruence | done].
Qed.

Lemma cart_set_NoDup b v c : NoDup c.*1 → NoDup (cart_set b v c).*1.
Proof.
  intros Hnd. rewrite cart_set_keys. case_decide; [done |].
  apply NoDup_app. split_and!; [done | | apply NoDup_singleton].
  intros x Hx Hx'. apply list_elem_of_singleton in Hx'. by subst.
Qed.

Lemma cart_del_sub b c : (cart_del b c).*1 ⊆ c.*1.
Proof.
  induction c as [|[k x] c IH]; cbn [cart_del]; [done |].
  case_decide; rewrite ?fmap_cons; cbn [fst].
  - intros y Hy. by apply list_elem_of_further.
  - intros y Hy. apply elem_of_cons in Hy as [->|Hy].
    + apply list_elem_of_here.
    + apply list_elem_of_further, IH, Hy.
Qed.

Lemma cart_del_NoDup b c : NoDup c.*1 → NoDup (cart_del b c).*1.
Proof.
  induction c as [|[k x] c IH]; cbn [cart_del]; [done |].
  rewrite fmap_cons. intros [Hk Hnd]%NoDup_cons. case_decide; [done |].
  rewrite fmap_cons. apply NoDup_cons. split; [| by apply IH].
  intros Hin. apply Hk. by apply (cart_del_sub b).
Qed.

(** ** Checkout: the stock *)

Lemma settle_fold_acc c inv (s : list signal) :
  fold_left (λ acc kv, let r := settle_line acc.1 kv in (r.1, acc.2 ++ r.2)) c (inv, s)
  = ((settle_stock c inv).1, s ++ (settle_stock c inv).2).
Proof.
  unfold settle_stock. revert inv s.
  induction c as [|kv c IH]; intros inv s; cbn [fold_left fst snd].
  - by rewrite app_nil_r.
  - rewrite IH. rewrite (IH _ ([] ++ _)). cbn [fst snd]. by rewrite app_assoc.
Qed.

Lemma settle_stock_cons kv c inv :
  settle_stock (kv :: c) inv
  = ((settle_stock c (settle_line inv kv).1).1,
     (settle_line inv kv).2 ++ (settle_stock c (settle_line inv kv).1).2).
Proof. unfold settle_stock at 1. cbn [fold_left fst snd]. apply settle_fold_acc. Qed.

Lemma settle_stock_lookup c inv b :
  NoDup c.*1 →
  (settle_stock c inv).1 !! b =
    match inv !! b with
    | None => None
    | Some e =>
        match cart_get b c with
        | Some item =>
            Some {| stock_quantity := nsub (stock_quantity e) (quantity item) |}
        | None => Some e
        end
    end.
Proof.
  revert inv. induction c as [|[k item] c IH]; intros inv Hnd.
  - cbn. by destruct (inv !! b).
  - rewrite fmap_cons in Hnd. apply NoDup_cons in Hnd as [Hk Hnd].
    rewrite settle_stock_cons. cbn [fst snd cart_get]. rewrite (IH _ Hnd).
    unfold settle_line. case_decide as Hkb.
    + cbn [fst] in Hk. subst k. apply cart_get_None in Hk. rewrite Hk.
      destruct (inv !! b) as [e|] eqn:He; cbn [fst].
      * by rewrite lookup_insert_eq.
      * by rewrite He.
    + destruct (inv !! k) as [e|] eqn:He; cbn [fst]; [| done].
      by rewrite lookup_insert_ne.
Qed.

Lemma settle_stock_negative c inv b item e :
  NoDup c.*1 → cart_get b c = Some item → inv !! b = Some e →
  nltb (nsub (stock_quantity e) (quantity item)) (of_int 0) = true →
  NegativeStockWarning (name item) ∈ (settle_stock c inv).2.
Proof.
  revert inv. induction c as [|[k it] c IH]; intros inv Hnd Hget He Hneg; [done |].
  rewrite fmap_cons in Hnd. apply NoDup_cons in Hnd as [Hk Hnd].
  rewrite settle_stock_cons. cbn [snd]. apply elem_of_app.
  cbn [cart_get] in Hget. case_decide as Hkb.
  - left. injection Hget as ->. subst k. unfold settle_line. rewrite He. cbn [snd].
    rewrite Hneg. apply list_elem_of_here.
  - right. apply IH; [done | done | | done].
    unfold settle_line. destruct (inv !! k); cbn [fst]; [| done].
    by rewrite lookup_insert_ne.
Qed.

Lemma settle_stock_missing c inv b item :
  NoDup c.*1 → cart_get b c = Some item → inv !! b = None →
  CriticalInventoryMismatch (name item) ∈ (settle_stock c inv).2.
Proof.
  revert inv. induction c as [|[k it] c IH]; intros inv Hnd Hget He; [done |].
  rewrite fmap_cons in Hnd. apply NoDup_cons in Hnd as [Hk Hnd].
  rewrite settle_stock_cons. cbn [snd]. apply elem_of_app.
  cbn [cart_get] in Hget. case_decide as Hkb.
  - left. injection Hget as ->. subst k. unfold settle_line. rewrite He.
    apply list_elem_of_here.
  - right. apply IH; [done | done |].
    unfold settle_line. destruct (inv !! k); cbn [fst]; [| done].
    by rewrite lookup_insert_ne.
Qed.

Lemma update_total_disk st : disk (update_total st) = disk st.
Proof. unfold update_total. by destruct (read_discount _). Qed.
Lemma update_total_inventory st : inventory (update_total st) = inventory st.
Proof. unfold update_total. by destruct (read_discount _). Qed.
Lemma update_total_cart st : cart (update_total st) = cart st.
Proof. unfold update_total. by destruct (read_discount _). Qed.
Lemma update_total_products st : products (update_total st) = products st.
Proof. unfold update_total. by destruct (read_discount _). Qed.

Lemma commit_eq i final da dp r ch st :
  commit i final da dp r ch st =
  let d1 := log_sale (sale_time i) (cart st) (disk st) in
  let s := settle_stock (cart st) (inventory_db (disk st)) in
  let st3 := with_disk (save_inventory s.1 d1)
               (with_inventory s.1 (refresh_data (with_disk d1 st))) in
  let g := generate_receipt st3 final da dp r ch (receipt_clock i) in
  (s.2 ++ [CheckoutComplete g.1], clear_cart (with_disk g.2 st3)).
Proof.
  unfold commit. cbn [refresh_data with_disk cart inventory disk log_sale inventory_db].
  destruct (settle_stock _ _) as [inv w]. cbn [fst snd].
  by destruct (generate_receipt _ _ _ _ _ _ _).
Qed.

(** C1: in the commit of a checkout the ledger is read again from the file
    ([ledger] below is the file's content, whatever [self.inventory] held
    before).  Every entry of it whose barcode has a cart line ends at its
    quantity minus the line's quantity, every other entry is unchanged,
    and the ledger written back is the ledger in memory.  A line whose
    entry ends below zero shows the negative-stock warning, a line whose
    barcode has no entry shows the critical error; in both cases the
    entries of all lines are as just said: nothing is blocked or undone. *)
Theorem commit_settles_stock i final da dp r ch st :
  NoDup (cart st).*1 →
  let ledger := inventory_db (disk st) in
  let shown := (commit i final da dp r ch st).1 in
  let st' := (commit i final da dp r ch st).2 in
  (∀ b, inventory_db (disk st') !! b =
        match ledger !! b with
        | None => None
        | Some e =>
            match cart_get b (cart st) with
            | Some item =>
                Some {| stock_quantity := nsub (stock_quantity e) (quantity item) |}
            | None => Some e
            end
        end)
  ∧ inventory st' = inventory_db (disk st')
  ∧ (∀ b item e,
       cart_get b (cart st) = Some item → ledger !! b = Some e →
       nltb (nsub (stock_quantity e) (quantity item)) (of_int 0) = true →
       NegativeStockWarning (name item) ∈ shown)
  ∧ (∀ b item,
       cart_get b (cart st) = Some item → ledger !! b = None →
       CriticalInventoryMismatch (name item) ∈ shown).
Proof.
  intros Hnd ledger shown st'. subst shown st'. rewrite commit_eq. cbn zeta.
  cbn [fst snd]. unfold clear_cart.
  rewrite update_total_disk, update_total_inventory.
  cbn [disk inventory with_disk with_inventory generate_receipt snd inventory_db
       save_inventory].
  split_and!.
  - intros b. by apply settle_stock_lookup.
  - done.
  - intros b item e Hget He Hneg. apply elem_of_app. left.
    by eapply settle_stock_negative.
  - intros b item Hget He. apply elem_of_app. left.
    by eapply settle_stock_missing.
Qed.

(** ** Checkout: the gates *)

(** The only message boxes of the commit loop are its two warnings. *)
Lemma settle_stock_signals c inv s :
  s ∈ (settle_stock c inv).2 →
  (∃ n, s = NegativeStockWarning n) ∨ (∃ n, s = CriticalInventoryMismatch n).
Proof.
  revert inv. induction c as [|[k it] c IH]; intros inv; [by intros ?%elem_of_nil |].
  rewrite settle_stock_cons. cbn [snd]. intros [Hs|Hs]%elem_of_app; [| by eapply IH].
  unfold settle_line in Hs. destruct (inv !! k); cbn [snd] in Hs.
  - destruct (nltb _ _); [| by apply elem_of_nil in Hs].
    apply list_elem_of_singleton in Hs. eauto.
  - apply list_elem_of_singleton in Hs. eauto.
Qed.

(** The percent [checkout] reads back after [update_total] is the one
    [update_total] computed with. *)
Lemma checkout_percent (e : entry (num:=num)) :
  e ≠ Garbage →
  (let p := match (read_discount e).2 with Typed p => p | _ => of_int 0 end in
   if in_range p then p else of_int 0) = (read_discount e).1.
Proof.
  intros He. destruct e as [| |p]; [| done |]; cbn [read_discount fst snd].
  - by case_match.
  - destruct (in_range p) eqn:Hp; cbn [fst snd]; [by rewrite Hp |].
    by case_match.
Qed.

Lemma read_discount_garbage (e : entry (num:=num)) :
  (read_discount e).2 = Garbage ↔ e = Garbage.
Proof.
  destruct e as [| |p]; cbn [read_discount snd]; [done | done |].
  by destruct (in_range p).
Qed.

Lemma update_total_discount_entry st :
  discount_entry (update_total st) = (read_discount (discount_entry st)).2.
Proof. unfold update_total. by destruct (read_discount _). Qed.

Lemma update_total_received_entry st :
  received_entry (update_total st) = received_entry st.
Proof. unfold update_total. by destruct (read_discount _). Qed.

Lemma update_total_subtotal st : subtotal (update_total st) = cart_sum (cart st).
Proof. unfold update_total. by destruct (read_discount _). Qed.

Lemma update_total_final_total st :
  final_total (update_total st) =
  nsub (cart_sum (cart st))
       (nmul (cart_sum (cart st))
             (ndiv (read_discount (discount_entry st)).1 (of_int 100))).
Proof. unfold update_total. by destruct (read_discount _). Qed.

(** [checkout] past the empty-cart check and the reading of the discount
    entry: the payment gate, the confirmation, the commit. *)
Lemma checkout_gates i st :
  cart st ≠ [] → discount_entry st ≠ Garbage →
  let st1 := update_total st in
  let percent := (read_discount (discount_entry st)).1 in
  let discount_amount := nmul (subtotal st1) (ndiv percent (of_int 100)) in
  let received := read_received (received_entry st) in
  checkout i st =
    if nltb received (final_total st1) then Returned [InsufficientPayment] st1
    else if negb (confirmed i) then Returned [] st1
    else Returned
           (commit i (final_total st1) discount_amount percent received
              (nsub received (final_total st1)) st1).1
           (commit i (final_total st1) discount_amount percent received
              (nsub received (final_total st1)) st1).2.
Proof.
  intros Hc He. cbn zeta. unfold checkout. destruct (cart st) eqn:Ec; [done |].
  assert (Hg : discount_entry (update_total st) ≠ Garbage).
  { rewrite update_total_discount_entry. by rewrite read_discount_garbage. }
  pose proof (checkout_percent (discount_entry st) He) as Hp. cbn zeta in Hp.
  rewrite <- update_total_discount_entry in Hp.
  rewrite update_total_final_total, update_total_subtotal, update_total_received_entry.
  revert Hp.
  destruct (discount_entry (update_total st)) as [| |pct]; [| done |];
    intros ->; destruct (nltb _ _); try done;
    destruct (negb _); try done;
    by destruct (commit _ _ _ _ _ _ _).
Qed.

(** Past the payment check no box of [checkout] is the one of a short
    payment. *)
Lemma checkout_accepts i st :
  cart st ≠ [] → discount_entry st ≠ Garbage →
  nltb (read_received (received_entry st)) (final_total (update_total st)) = false →
  ∀ shown st', checkout i st = Returned shown st' → InsufficientPayment ∉ shown.
Proof.
  intros Hc He Hlt shown st'.
  pose proof (checkout_gates i st Hc He) as Hgo. cbn zeta in Hgo.
  rewrite Hgo, Hlt. destruct (negb (confirmed i)).
  - intros [= <- _]. apply not_elem_of_nil.
  - intros [= <- _]. rewrite commit_eq. cbn [fst].
    intros [Hs|Hs]%elem_of_app.
    + apply settle_stock_signals in Hs as [[n Hn]|[n Hn]]; discriminate.
    + apply list_elem_of_singleton in Hs. discriminate.
Qed.

(** X22: with lines in the cart and a discount entry that is empty or
    that [float()] can read, [checkout] answers "amount received is less
    than the total due" when the amount received is strictly below the final
    total, and at no other time; in particular equal amounts pass, on
    numbers where no value is below itself.  The state it then returns to
    is the one [update_total] gives: cart, files and loaded inventory as
    before. *)
Theorem checkout_insufficient_payment i st :
  cart st ≠ [] → discount_entry st ≠ Garbage →
  let st1 := update_total st in
  let received := read_received (received_entry st) in
  (nltb received (final_total st1) = true →
     checkout i st = Returned [InsufficientPayment] st1)
  ∧ (nltb received (final_total st1) = false →
     ∀ shown st', checkout i st = Returned shown st' → InsufficientPayment ∉ shown)
  ∧ ((∀ x : num, nltb x x = false) → received = final_total st1 →
     ∀ shown st', checkout i st = Returned shown st' → InsufficientPayment ∉ shown)
  ∧ cart st1 = cart st ∧ disk st1 = disk st ∧ inventory st1 = inventory st.
Proof.
  intros Hc He st1 received.
  pose proof (checkout_gates i st Hc He) as Hgo. cbn zeta in Hgo.
  fold st1 received in Hgo.
  assert (Hacc : nltb received (final_total st1) = false →
    ∀ shown st', checkout i st = Returned shown st' → InsufficientPayment ∉ shown).
  { intros Hlt shown st'. rewrite Hgo, Hlt.
    destruct (negb (confirmed i)).
    - intros [= <- _]. apply not_elem_of_nil.
    - intros [= <- _]. rewrite commit_eq. cbn [fst].
      intros [Hs|Hs]%elem_of_app.
      + apply settle_stock_signals in Hs as [[n Hn]|[n Hn]]; discriminate.
      + apply list_elem_of_singleton in Hs. discriminate. }
  split_and!.
  - intros Hlt. by rewrite Hgo, Hlt.
  - exact Hacc.
  - intros Hirr Heq. apply Hacc. rewrite Heq. apply Hirr.
  - apply update_total_cart.
  - apply update_total_disk.
  - apply update_total_inventory.
Qed.

(** ** Adding to the cart *)

Lemma update_total_with_disk d st :
  update_total (with_disk d st) = with_disk d (update_total st).
Proof. unfold update_total, with_disk; cbn. by destruct (read_discount _). Qed.

(** [scan_item] on a request that passes its checks. *)
Lemma scan_item_success b q p st :
  b ≠ "" → 0 < q → products st !! b = Some p →
  over_stock b q st = Some false → int_fits q = true →
  scan_item b (Some q) st =
    Returned []
      (update_total
         (with_cart (cart_set b (unit_line p q (cart_get b (cart st))) (cart st)) st)).
Proof.
  intros Hb Hq Hp Hs Hfit. unfold scan_item.
  rewrite decide_False by done.
  destruct (Z.leb_spec q 0) as [?|_]; [lia |]. by rewrite Hp, Hs, Hfit.
Qed.

(** The ways out of [scan_item]: no box and nothing done for an empty
    barcode, one box, [OverflowError], or the add. *)
Lemma scan_item_cases b q st :
  (b = "" ∧ scan_item b q st = Returned [] st)
  ∨ (∃ s, scan_item b q st = Returned [s] st)
  ∨ scan_item b q st = Raised OverflowError st
  ∨ ∃ n p, b ≠ "" ∧ q = Some n ∧ 0 < n ∧ products st !! b = Some p
           ∧ over_stock b n st = Some false ∧ int_fits n = true
           ∧ scan_item b q st =
               Returned []
                 (update_total
                    (with_cart
                       (cart_set b (unit_line p n (cart_get b (cart st))) (cart st))
                       st)).
Proof.
  unfold scan_item. case_decide as Hb; [by left |].
  destruct q as [n|]; [| right; left; eauto].
  destruct (Z.leb_spec n 0) as [?|Hn]; [right; left; eauto |].
  destruct (products st !! b) as [p|] eqn:Hp; [| right; left; eauto].
  destruct (over_stock b n st) as [[|]|] eqn:Hs;
    [right; left; eauto | | by right; right; left].
  destruct (int_fits n) eqn:Hfit; [| by right; right; left].
  do 3 right. exists n, p. by split_and!.
Qed.

(** [add_weighted_item] on a request that passes its checks. *)
Lemma add_weighted_item_success b w p st :
  is_weighted_barcode b = true → products st !! b = Some p →
  nleb w (of_int 0) = false →
  nltb (current_stock b st) (nadd (cart_qty b st) w) = false →
  add_weighted_item b (Some w) st =
    ([], update_total
           (with_cart (cart_set b (weighted_line p w (cart_get b (cart st))) (cart st)) st)).
Proof.
  intros Hb Hp Hw Hs. unfold add_weighted_item. by rewrite Hb, Hp, Hw, Hs.
Qed.

(** The ways out of [add_weighted_item]: one box, or the add. *)
Lemma add_weighted_item_cases b w st :
  (∃ s, add_weighted_item b w st = ([s], st))
  ∨ ∃ x p, w = Some x ∧ is_weighted_barcode b = true ∧ products st !! b = Some p
           ∧ nleb x (of_int 0) = false
           ∧ nltb (current_stock b st) (nadd (cart_qty b st) x) = false
           ∧ add_weighted_item b w st =
               ([], update_total
                      (with_cart
                         (cart_set b (weighted_line p x (cart_get b (cart st))) (cart st))
                         st)).
Proof.
  unfold add_weighted_item. destruct w as [x|]; [| left; eauto].
  destruct (is_weighted_barcode b) eqn:Hb; cbn [negb]; [| left; eauto].
  destruct (products st !! b) as [p|] eqn:Hp; [| left; eauto].
  destruct (nleb x (of_int 0)) eqn:Hx; [left; eauto |].
  destruct (nltb _ _) eqn:Hs; [left; eauto |].
  right. exists x, p. by split_and!.
Qed.

(** The ways out of [remove_selected_item]: one box, nothing done, or the
    removal. *)
Lemma remove_selected_item_cases selection answer st :
  (∃ s, remove_selected_item selection answer st = ([s], st))
  ∨ remove_selected_item selection answer st = ([], st)
  ∨ ∃ b, remove_selected_item selection answer st =
           ([], update_total (with_cart (cart_del b (cart st)) st)).
Proof.
  unfold remove_selected_item. destruct selection as [n|]; [| left; eauto].
  destruct (_ !! n) as [b|]; [| left; eauto].
  destruct answer; [right; right; eauto | by right; left].
Qed.

(** After the commit of a checkout the ledger in memory is the one in the
    file. *)
Lemma commit_inventory i final da dp r ch st :
  inventory (commit i final da dp r ch st).2
  = inventory_db (disk (commit i final da dp r ch st).2).
Proof.
  rewrite commit_eq. cbn zeta. cbn [snd]. unfold clear_cart.
  rewrite update_total_disk, update_total_inventory.
  by cbn [disk inventory with_disk with_inventory generate_receipt snd inventory_db
          save_inventory].
Qed.

(** The ways out of [checkout]. *)
Lemma checkout_cases i st :
  checkout i st = Returned [EmptyCart] st
  ∨ checkout i st = Raised ValueError (update_total st)
  ∨ checkout i st = Returned [InsufficientPayment] (update_total st)
  ∨ checkout i st = Returned [] (update_total st)
  ∨ ∃ final discount_amount discount_percent received change,
      cart st ≠ [] ∧ confirmed i = true
      ∧ checkout i st =
          Returned
            (commit i final discount_amount discount_percent received change
               (update_total st)).1
            (commit i final discount_amount discount_percent received change
               (update_total st)).2.
Proof.
  unfold checkout. destruct (cart st) as [|kv c] eqn:Hc; [by left |].
  destruct (discount_entry (update_total st)); [| by right; left |];
    (destruct (nltb _ _); [by right; right; left |]);
    (destruct (confirmed i) eqn:Hi; cbn [negb]; [| by right; right; right; left]);
    do 4 right;
    match goal with
    | |- context [commit i ?f ?da ?dp ?r ?ch ?s] =>
        exists f, da, dp, r, ch; destruct (commit i f da dp r ch s); by split_and!
    end.
Qed.

(** C3, as amended: the stock [scan_item] compares with is the entry of
    [self.inventory], the copy of the ledger the screen holds in memory (0
    for a barcode without entry), and the files have no part in the call:
    over other files it ends the same way and leaves the same state.  That
    copy is the ledger file right after [refresh_data] and right after the
    commit of a checkout, which subtracts the quantities sold from the copy
    and writes it back; and from a state where copy and file agree, every
    operation of the screen leads to one where they agree. *)
Theorem scan_item_reads_snapshot b q st :
  (∀ d, scan_item b q (with_disk d st) =
        match scan_item b q st with
        | Returned shown st' => Returned shown (with_disk d st')
        | Raised e st' => Raised e (with_disk d st')
        end)
  ∧ (∀ quantity_to_add p,
       q = Some quantity_to_add → b ≠ "" → 0 < quantity_to_add →
       products st !! b = Some p →
       (scan_item b q st = Returned [InsufficientStock] st ↔
        match cart_get b (cart st) with
        | Some l =>
            int_fits quantity_to_add = true
            ∧ nltb (from_option stock_quantity (of_int 0) (inventory st !! b))
                   (nadd (quantity l) (of_int quantity_to_add)) = true
        | None =>
            nlt_int (from_option stock_quantity (of_int 0) (inventory st !! b))
                    quantity_to_add = true
        end))
  ∧ inventory (refresh_data st) = inventory_db (disk st)
  ∧ (∀ i final da dp r ch,
       let st' := (commit i final da dp r ch st).2 in
       inventory st' = inventory_db (disk st')
       ∧ ∀ k e item, inventory_db (disk st) !! k = Some e →
           cart_get k (cart st) = Some item → NoDup (cart st).*1 →
           inventory st' !! k =
             Some {| stock_quantity := nsub (stock_quantity e) (quantity item) |})
  ∧ (inventory st = inventory_db (disk st) →
     (let st' := state_of (scan_item b q st) in
      inventory st' = inventory_db (disk st'))
     ∧ (∀ w, let st' := (add_weighted_item b w st).2 in
             inventory st' = inventory_db (disk st'))
     ∧ (∀ selection answer,
          let st' := (remove_selected_item selection answer st).2 in
          inventory st' = inventory_db (disk st'))
     ∧ (∀ i, let st' := state_of (checkout i st) in
             inventory st' = inventory_db (disk st'))).
Proof.
  assert (Hkeep : ∀ c', inventory st = inventory_db (disk st) →
            inventory (update_total (with_cart c' st))
            = inventory_db (disk (update_total (with_cart c' st)))).
  { intros c' Heq. by rewrite update_total_inventory, update_total_disk. }
  split_and!.
  - intros d. unfold scan_item, over_stock, current_stock.
    cbn [with_disk products inventory cart].
    repeat case_match; try done;
      f_equal; by rewrite <- update_total_with_disk.
  - intros n p -> Hb Hn Hp. fold (current_stock b st).
    unfold scan_item, over_stock. rewrite decide_False by done.
    destruct (Z.leb_spec n 0) as [?|_]; [lia |]. rewrite Hp.
    destruct (cart_get b (cart st)) as [l|].
    + destruct (int_fits n); [| by split; [| intros [? _]]].
      destruct (nltb _ _); [done |]. by split; [| intros [_ ?]].
    + destruct (nlt_int _ _); [done |].
      by destruct (int_fits n).
  - done.
  - intros i final da dp r ch. cbn zeta. split; [apply commit_inventory |].
    intros k e item He Hitem Hnd. rewrite commit_inventory, commit_eq. cbn zeta.
    cbn [snd]. unfold clear_cart. rewrite update_total_disk.
    cbn [disk with_disk generate_receipt snd inventory_db save_inventory].
    rewrite settle_stock_lookup by done. by rewrite He, Hitem.
  - intros Heq. split_and!.
    + cbn zeta.
      destruct (scan_item_cases b q st)
        as [[_ ->] | [[s ->] | [-> | (n & p & _ & _ & _ & _ & _ & _ & ->)]]];
        cbn [state_of]; auto.
    + intros w. cbn zeta.
      destruct (add_weighted_item_cases b w st)
        as [[s ->] | (x & p & _ & _ & _ & _ & _ & ->)]; cbn [snd]; auto.
    + intros selection answer. cbn zeta.
      destruct (remove_selected_item_cases selection answer st)
        as [[s ->] | [-> | [k ->]]]; cbn [snd]; auto.
    + intros i. cbn zeta.
      assert (Hu : inventory (update_total st) = inventory_db (disk (update_total st)))
        by (by rewrite update_total_inventory, update_total_disk).
      destruct (checkout_cases i st)
        as [-> | [-> | [-> | [-> | (f & da & dp & r & ch & _ & _ & ->)]]]];
        cbn [state_of]; try done.
      apply commit_inventory.
Qed.

(** X20: a request over the stock is turned down.  When the stock compared
    is below the quantity in the cart plus the quantity asked for,
    [scan_item] (for a positive count of a known product) and
    [add_weighted_item] (for a positive weight of a known weighted product)
    answer "not enough in stock" and leave the state as it was; for
    [scan_item] the comparison is the float one when the cart has a line
    and the count is one [float()] can hold, and the exact one with the
    count when the cart has none.  No condition is put on the stock.  And
    whatever else is wrong with such a request, the cart is left as it
    was. *)
Theorem over_stock_rejected st b :
  (∀ q p l, b ≠ "" → 0 < q → products st !! b = Some p →
     cart_get b (cart st) = Some l → int_fits q = true →
     nltb (current_stock b st) (nadd (quantity l) (of_int q)) = true →
     scan_item b (Some q) st = Returned [InsufficientStock] st)
  ∧ (∀ q p, b ≠ "" → 0 < q → products st !! b = Some p →
     cart_get b (cart st) = None →
     nlt_int (current_stock b st) q = true →
     scan_item b (Some q) st = Returned [InsufficientStock] st)
  ∧ (∀ w p, is_weighted_barcode b = true → products st !! b = Some p →
     nleb w (of_int 0) = false →
     nltb (current_stock b st) (nadd (cart_qty b st) w) = true →
     add_weighted_item b (Some w) st = ([InsufficientStock], st))
  ∧ (∀ q, over_stock b q st = Some true →
     cart (state_of (scan_item b (Some q) st)) = cart st)
  ∧ (∀ w, nltb (current_stock b st) (nadd (cart_qty b st) w) = true →
     cart (add_weighted_item b (Some w) st).2 = cart st).
Proof.
  split_and!.
  - intros q p l Hb Hq Hp Hl Hfit Hs. unfold scan_item, over_stock.
    rewrite decide_False by done.
    destruct (Z.leb_spec q 0) as [?|_]; [lia |]. by rewrite Hp, Hl, Hfit, Hs.
  - intros q p Hb Hq Hp Hl Hs. unfold scan_item, over_stock.
    rewrite decide_False by done.
    destruct (Z.leb_spec q 0) as [?|_]; [lia |]. by rewrite Hp, Hl, Hs.
  - intros w p Hb Hp Hw Hs. unfold add_weighted_item.
    by rewrite Hb, Hp, Hw, Hs.
  - intros q Hs. unfold scan_item. rewrite Hs. by repeat case_match.
  - intros w Hs. unfold add_weighted_item. rewrite Hs. by repeat case_match.
Qed.

(** C10, as amended: [scan_item] checks no prefix.  For any barcode of the
    catalog, "W-" or not, a positive count within stock that [float()] can
    hold is added without a message box; and whenever a count is added, it
    goes to a new line with [is_weighted] false and the count as quantity
    when the cart has none for the barcode, and otherwise to the existing
    line, whose flag stays as it is and whose quantity grows by the
    count. *)
Theorem scan_item_line b q p st :
  b ≠ "" → products st !! b = Some p →
  (0 < q → over_stock b q st = Some false → int_fits q = true →
   ∃ st', scan_item b (Some q) st = Returned [] st')
  ∧ ∀ st', scan_item b (Some q) st = Returned [] st' →
      (cart_get b (cart st) = None →
       ∃ l, cart_get b (cart st') = Some l
            ∧ is_weighted l = false ∧ quantity l = of_int q
            ∧ name l = product_name p ∧ unit_price l = price p)
      ∧ (∀ l0, cart_get b (cart st) = Some l0 →
         ∃ l, cart_get b (cart st') = Some l
              ∧ is_weighted l = is_weighted l0
              ∧ quantity l = nadd (quantity l0) (of_int q)).
Proof.
  intros Hb Hp. split.
  - intros Hq Hs Hfit. rewrite (scan_item_success b q p st) by done. by eexists.
  - intros st'.
    destruct (scan_item_cases b (Some q) st)
      as [[? _] | [[s ->] | [-> | (n & p' & _ & [= <-] & _ & Hp' & _ & _ & ->)]]];
      [done | done | done |].
    rewrite Hp in Hp'. injection Hp' as <-. intros [= <-].
    rewrite update_total_cart. cbn [with_cart cart].
    rewrite cart_get_set_eq. split.
    + intros ->. eexists. split; [done |]. done.
    + intros l0 ->. eexists. split; [done |]. done.
Qed.

(** ** Sequences of adds *)

(** The line an add that returns without a message box leaves. *)
Lemma apply_add_success b r st st1 :
  b ≠ "" → apply_add b r st = Returned [] st1 →
  ∃ p, products st !! b = Some p
       ∧ products st1 = products st
       ∧ cart_get b (cart st1) =
           Some (match r with
                 | AddUnit q => unit_line p q (cart_get b (cart st))
                 | AddWeighted w => weighted_line p w (cart_get b (cart st))
                 end).
Proof.
  intros Hb. destruct r as [q|w]; cbn [apply_add].
  - destruct (scan_item_cases b (Some q) st)
      as [[? _] | [[s ->] | [-> | (n & p & _ & [= <-] & _ & Hp & _ & _ & ->)]]];
      [done | done | done |].
    intros [= <-]. exists p.
    rewrite update_total_products, update_total_cart. cbn [with_cart products cart].
    by rewrite cart_get_set_eq.
  - destruct (add_weighted_item_cases b (Some w) st)
      as [[s ->] | (x & p & [= <-] & _ & Hp & _ & _ & ->)]; [done |].
    intros [= <-]. exists p.
    rewrite update_total_products, update_total_cart. cbn [with_cart products cart].
    by rewrite cart_get_set_eq.
Qed.

Lemma run_adds_line b p rs st st' l0 :
  b ≠ "" → products st !! b = Some p →
  cart_get b (cart st) = Some l0 →
  unit_price l0 = price p →
  run_adds b rs st = Some st' →
  ∃ l, cart_get b (cart st') = Some l
       ∧ quantity l = fold_left nadd (map added rs) (quantity l0)
       ∧ unit_price l = price p
       ∧ (∀ q, last rs = Some (AddUnit q) →
            line_total l = nmul (unit_price l) (quantity l))
       ∧ (line_total l0 = nmul (unit_price l0) (quantity l0) →
          adds_up (price p) (quantity l0) rs →
          line_total l = nmul (unit_price l) (quantity l)).
Proof.
  intros Hb. revert st l0.
  induction rs as [|r rs IH]; intros st l0 Hp Hl0 Hup Hrun.
  - injection Hrun as <-. exists l0. by split_and!.
  - cbn [run_adds] in Hrun.
    destruct (apply_add b r st) as [[|s ss] st1|] eqn:Hr; [| done | done].
    apply apply_add_success in Hr as (p' & Hp' & Hprod & Hl1); [| done].
    rewrite Hp in Hp'. injection Hp' as <-. rewrite Hl0 in Hl1.
    rewrite <- Hprod in Hp.
    destruct r as [q|w]; cbn [unit_line weighted_line] in Hl1.
    + destruct (IH _ _ Hp Hl1 Hup Hrun) as (l & Hl & Hq & Hu & Hlast & Hex).
      exists l. split_and!; [done | done | done | |].
      * intros q'. destruct rs as [|r' rs]; [| exact (Hlast q')].
        intros _. cbn [run_adds] in Hrun. injection Hrun as <-.
        rewrite Hl1 in Hl. by injection Hl as <-.
      * intros _ Hsum. cbn [adds_up] in Hsum. by apply Hex.
    + destruct (IH _ _ Hp Hl1 Hup Hrun) as (l & Hl & Hq & Hu & Hlast & Hex).
      exists l. split_and!; [done | done | done | |].
      * intros q'. destruct rs as [|r' rs]; [done | exact (Hlast q')].
      * intros Hlt [Hw Hsum]. apply Hex; [| done]. cbn [line_total unit_price quantity].
        by rewrite Hlt, Hup, Hw.
Qed.

(** X21: after a run of adds on one barcode, unit or weighted in any
    order, each returning without a message box, starting without a line
    for it, the line's quantity is the sum of the quantities added, in the
    order added, and its unit price is the catalog price.  Its line total
    is the unit price times the quantity when the last add was a unit add,
    and also when every weight added was priced at what it adds to the
    price of the line ([adds_up]); nothing is assumed of the numbers. *)
Theorem adds_accumulate b r rs st st' :
  b ≠ "" → cart_get b (cart st) = None →
  run_adds b (r :: rs) st = Some st' →
  ∃ l p, cart_get b (cart st') = Some l
         ∧ products st !! b = Some p
         ∧ quantity l = fold_left nadd (map added rs) (added r)
         ∧ unit_price l = price p
         ∧ (∀ q, last (r :: rs) = Some (AddUnit q) →
              line_total l = nmul (unit_price l) (quantity l))
         ∧ (adds_up (price p) (added r) rs →
            line_total l = nmul (unit_price l) (quantity l)).
Proof.
  intros Hb Hnone Hrun. cbn [run_adds] in Hrun.
  destruct (apply_add b r st) as [[|s ss] st1|] eqn:Hr; [| done | done].
  apply apply_add_success in Hr as (p & Hp & Hprod & Hl1); [| done].
  rewrite Hnone in Hl1. rewrite <- Hprod in Hp.
  assert (Hfirst : ∃ l1, cart_get b (cart st1) = Some l1 ∧ quantity l1 = added r
                         ∧ unit_price l1 = price p
                         ∧ line_total l1 = nmul (unit_price l1) (quantity l1)).
  { eexists. split; [exact Hl1 |]. by destruct r. }
  destruct Hfirst as (l1 & Hget & Hq1 & Hu1 & Ht1).
  destruct (run_adds_line b p rs st1 st' l1 Hb Hp Hget Hu1 Hrun)
    as (l & Hl & Hq & Hu & Hlast & Hex).
  rewrite Hprod in Hp.
  exists l, p. split_and!; [done | done | by rewrite Hq, Hq1 | done | |].
  - intros q. destruct rs as [|r' rs]; [| exact (Hlast q)].
    intros _. cbn [run_adds] in Hrun. injection Hrun as <-.
    rewrite Hget in Hl. by injection Hl as <-.
  - intros Hsum. apply Hex; [done | by rewrite Hq1].
Qed.

(** ** The cart invariant *)

Lemma cart_set_Forall (P : string * CartLine (num:=num) → Prop) b v c :
  Forall P c → (∀ k, P (k, v)) → Forall P (cart_set b v c).
Proof.
  intros Hc Hv. induction c as [|[k x] c IH]; cbn [cart_set].
  - by constructor.
  - apply Forall_cons in Hc as [Hx Hc]. case_decide; constructor; auto.
Qed.

Lemma cart_del_Forall (P : string * CartLine (num:=num) → Prop) b c :
  Forall P c → Forall P (cart_del b c).
Proof.
  intros Hc. induction c as [|[k x] c IH]; cbn [cart_del]; [done |].
  apply Forall_cons in Hc as [Hx Hc]. case_decide; [done |]. constructor; auto.
Qed.

(** After [update_total] the subtotal is the sum again, whatever it was. *)
Lemma update_total_invariant st :
  Forall (λ kv, nltb (of_int 0) (quantity kv.2) = true) (cart st) →
  cart_invariant (update_total st).
Proof.
  intros Hq. split.
  - by rewrite update_total_cart.
  - by rewrite update_total_subtotal, update_total_cart.
Qed.

(** X1: the cart invariant is kept by [remove_selected_item] and
    [clear_cart]; by [scan_item] where a positive count converts to a
    positive number and the sum of two positive numbers is positive; and,
    where such sums are positive, by [add_weighted_item] for every weight
    that is above zero once it is not at or below zero, that is for every
    weight but a NaN. *)
Lemma cart_invariant_preserved st :
  cart_invariant st →
  ((∀ q, 0 < q → nltb (of_int 0) (of_int q : num) = true) →
   (∀ a a' : num, nltb (of_int 0) a = true → nltb (of_int 0) a' = true →
                  nltb (of_int 0) (nadd a a') = true) →
   ∀ b q, cart_invariant (state_of (scan_item b q st)))
  ∧ ((∀ a a' : num, nltb (of_int 0) a = true → nltb (of_int 0) a' = true →
                    nltb (of_int 0) (nadd a a') = true) →
     ∀ b w, (∀ x, w = Some x → nleb x (of_int 0) = false →
                  nltb (of_int 0) x = true) →
            cart_invariant (add_weighted_item b w st).2)
  ∧ (∀ selection answer, cart_invariant (remove_selected_item selection answer st).2)
  ∧ cart_invariant (clear_cart st).
Proof.
  intros [Hq Hsub].
  assert (Hold : ∀ b l, cart_get b (cart st) = Some l →
                        nltb (of_int 0) (quantity l) = true).
  { intros b l Hl%cart_get_Some_elem.
    by apply (proj1 (Forall_forall _ _) Hq (b, l)). }
  split_and!.
  - intros Hint Hadd b q.
    destruct (scan_item_cases b q st)
      as [[_ ->] | [[s ->] | [-> | (n & p & _ & _ & Hn & _ & _ & _ & ->)]]];
      cbn [state_of]; [done | done | done |].
    apply update_total_invariant. cbn [with_cart cart].
    apply cart_set_Forall; [done |]. intros k. cbn [snd].
    destruct (cart_get b (cart st)) as [l|] eqn:Hl; cbn [unit_line quantity].
    + apply Hadd; [by eapply Hold | by apply Hint].
    + by apply Hint.
  - intros Hadd b w Hw.
    destruct (add_weighted_item_cases b w st)
      as [[s ->] | (x & p & -> & _ & _ & Hx & _ & ->)]; cbn [snd]; [done |].
    apply update_total_invariant. cbn [with_cart cart].
    apply cart_set_Forall; [done |]. intros k. cbn [snd].
    destruct (cart_get b (cart st)) as [l|] eqn:Hl; cbn [weighted_line quantity].
    + apply Hadd; [by eapply Hold | by apply Hw].
    + by apply Hw.
  - intros selection answer.
    destruct (remove_selected_item_cases selection answer st)
      as [[s ->] | [-> | [k ->]]]; cbn [snd]; [done | done |].
    apply update_total_invariant. cbn [with_cart cart]. by apply cart_del_Forall.
  - unfold clear_cart. apply update_total_invariant. cbn [cart]. constructor.
Qed.

(** ** The sales log *)

(** C8: the commit of a checkout leaves the sales log as the list that was
    there before followed by one record per cart line, in cart order, each
    with the line's barcode, name, quantity, line total and weighted flag
    and all with the one time stamp read in [log_sale]. *)
Theorem commit_appends_sales i final da dp r ch st :
  let st' := (commit i final da dp r ch st).2 in
  ∃ new,
    sales_log_db (disk st') = Some (default [] (sales_log_db (disk st)) ++ new)
    ∧ Forall2 (λ rec kv,
                 log_timestamp rec = sale_time i
                 ∧ log_barcode rec = kv.1
                 ∧ log_name rec = name kv.2
                 ∧ log_quantity rec = quantity kv.2
                 ∧ log_line_total rec = line_total kv.2
                 ∧ log_is_weighted rec = is_weighted kv.2)
              new (cart st).
Proof.
  cbn zeta. rewrite commit_eq. cbn zeta. cbn [snd]. unfold clear_cart.
  rewrite update_total_disk.
  cbn [disk with_disk generate_receipt snd sales_log_db save_inventory log_sale].
  eexists. split; [done |].
  induction (cart st) as [|kv c IH]; cbn [map]; constructor; [| exact IH].
  by destruct kv.
Qed.

(** ** The receipt *)

(** C9, as amended: the receipt text is determined by the shop name, the
    cart lines in order, the subtotal, the five figures passed in and the
    date and time read from the clock: two states that agree on the first
    three give, for the same figures and the same clock reading, the same
    text, whatever else differs between them. *)
Theorem receipt_depends_on_inputs s1 s2 final da dp r ch date_time :
  shop_name s1 = shop_name s2 →
  (cart s1).*2 = (cart s2).*2 →
  subtotal s1 = subtotal s2 →
  receipt_document s1 final da dp r ch date_time
  = receipt_document s2 final da dp r ch date_time.
Proof.
  intros Hn Hc Hs. unfold receipt_document, receipt_lines.
  rewrite Hn, Hs. do 3 f_equal.
  assert (Hmap : ∀ c, map (λ kv : string * CartLine, receipt_item kv.2) c
                      = map receipt_item c.*2).
  { intros c. induction c as [|kv c IH]; cbn; [done | by rewrite IH]. }
  by rewrite !Hmap, Hc.
Qed.

End Properties.
(** * Scenarios *)

Import Sample.

(** The commit on a cart of milk, apples and bread over a ledger with 100
    milk, 1 kg of apples and no bread. *)
Lemma commit_settles_stock_witness :
  NoDup (cart changed_ledger).*1
  ∧ (let st' := (commit at_ten (dec 410 1) (dec 0 1) (dec 0 1) (dec 500 1) (dec 90 1)
                   changed_ledger).2 in
     inventory_db (disk st') !! "1001"
       = Some {| stock_quantity := nsub (dec 100 1) (of_int 3) |}
     ∧ inventory_db (disk st') !! "2002" = None
     ∧ inventory st' = inventory_db (disk st'))
  ∧ NegativeStockWarning "Apple"
      ∈ (commit at_ten (dec 410 1) (dec 0 1) (dec 0 1) (dec 500 1) (dec 90 1)
           changed_ledger).1
  ∧ CriticalInventoryMismatch "Bread"
      ∈ (commit at_ten (dec 410 1) (dec 0 1) (dec 0 1) (dec 500 1) (dec 90 1)
           changed_ledger).1.
Proof.
  assert (Hnd : NoDup (cart changed_ledger).*1).
  { apply (bool_decide_unpack _). by vm_compute. }
  split; [exact Hnd |].
  destruct (commit_settles_stock at_ten (dec 410 1) (dec 0 1) (dec 0 1)
              (dec 500 1) (dec 90 1) changed_ledger Hnd) as (Hl & Hmem & Hneg & Hcrit).
  cbv zeta in *. split_and!.
  - etrans; [apply Hl | reflexivity].
  - etrans; [apply Hl | reflexivity].
  - exact Hmem.
  - exact (Hneg "W-APPLE" (weighted_line apple (dec 5 2) None)
             {| stock_quantity := dec 1 1 |} eq_refl eq_refl eq_refl).
  - exact (Hcrit "2002" bread_line eq_refl eq_refl).
Defined.

(** 40.00 received for one milk at 50.00. *)
Lemma checkout_insufficient_payment_witness :
  cart short_paid ≠ []
  ∧ discount_entry short_paid ≠ Garbage
  ∧ checkout at_ten short_paid
    = Returned [InsufficientPayment] (update_total short_paid)
  ∧ cart (update_total short_paid) = cart short_paid
  ∧ disk (update_total short_paid) = disk short_paid.
Proof.
  assert (Hc : cart short_paid ≠ []) by (by vm_compute).
  assert (He : discount_entry short_paid ≠ Garbage) by (by vm_compute).
  destruct (checkout_insufficient_payment at_ten short_paid Hc He)
    as (Hrej & _ & _ & Hcart & Hdisk & _).
  split_and!; [exact Hc | exact He | | exact Hcart | exact Hdisk].
  apply Hrej. vm_compute. reflexivity.
Defined.

(** C3 as stated fails: the ledger file holds 10 milk at the time of the
    call, which covers the one requested, and [scan_item] answers "not
    enough in stock" from the copy loaded before the restock; after a
    [refresh_data] the same request is accepted. *)
Lemma stale_snapshot_rejects :
  inventory_db (disk restocked_outside) !! "1001"
    = Some {| stock_quantity := dec 10 1 |}
  ∧ nltb (dec 10 1) (nadd (cart_qty "1001" restocked_outside) (of_int 1)) = false
  ∧ nlt_int (dec 10 1) 1 = false
  ∧ scan_item "1001" (Some 1) restocked_outside
    = Returned [InsufficientStock] restocked_outside
  ∧ ∃ st', scan_item "1001" (Some 1) (refresh_data restocked_outside) = Returned [] st'.
Proof.
  split_and!; [vm_compute; reflexivity .. |].
  eexists. vm_compute. reflexivity.
Qed.

(** Three milk of a hundred are sold: the commit loads 100, subtracts the 3
    and writes 97, which is also what the copy in memory then holds, and
    98 more are turned down. *)
Lemma scan_item_reads_snapshot_witness :
  let sold := (commit at_ten (dec 135 1) (dec 15 1) (dec 10 1) (dec 200 1) (dec 65 1)
                 paying_three_milk).2 in
  inventory_db (disk paying_three_milk) !! "1001"
    = Some {| stock_quantity := dec 100 1 |}
  ∧ inventory sold !! "1001" = Some {| stock_quantity := dec 97 1 |}
  ∧ inventory sold = inventory_db (disk sold)
  ∧ scan_item "1001" (Some 98) sold = Returned [InsufficientStock] sold
  ∧ ∃ st', scan_item "1001" (Some 97) sold = Returned [] st'.
Proof.
  cbv zeta.
  destruct (scan_item_reads_snapshot "1001" (Some 98) paying_three_milk)
    as (_ & _ & _ & Hcommit & _).
  destruct (Hcommit at_ten (dec 135 1) (dec 15 1) (dec 10 1) (dec 200 1) (dec 65 1))
    as [Hsame Hsold].
  split_and!.
  - reflexivity.
  - etrans; [apply (Hsold "1001" {| stock_quantity := dec 100 1 |} (unit_line milk 3 None));
             [reflexivity | reflexivity | apply (bool_decide_unpack _); by vm_compute] |].
    vm_compute. reflexivity.
  - exact Hsame.
  - vm_compute. reflexivity.
  - eexists. vm_compute. reflexivity.
Defined.

(** Scenario C: five milk in stock, five in the cart, one more requested. *)
Lemma over_stock_rejected_witness :
  current_stock "1001" five_of_five = dec 5 1
  ∧ cart_qty "1001" five_of_five = dec 5 1
  ∧ scan_item "1001" (Some 1) five_of_five
    = Returned [InsufficientStock] five_of_five.
Proof.
  split_and!; [reflexivity | reflexivity |].
  apply (proj1 (over_stock_rejected five_of_five "1001") 1 milk (unit_line milk 5 None));
    [done | lia | reflexivity | reflexivity | reflexivity | vm_compute; reflexivity].
Defined.

(** C4: with a milk in the cart, a count of 401 digits is far above the
    five in stock, and [scan_item] shows no "not enough in stock":
    [OverflowError] leaves it from the stock comparison, where the count is
    added to the float quantity of the line. *)
Lemma huge_count_raises :
  current_stock "1001" float_one_milk = of_int 5
  ∧ (∃ l, cart_get "1001" (cart float_one_milk) = Some l ∧ quantity l = of_int 1)
  ∧ 0 < huge_count
  ∧ nlt_int (current_stock "1001" float_one_milk) huge_count = true
  ∧ int_fits (num:=float) huge_count = false
  ∧ scan_item "1001" (Some huge_count) float_one_milk
    = Raised OverflowError float_one_milk
  ∧ shown_of (scan_item "1001" (Some huge_count) float_one_milk) = []
  ∧ scan_item "1001" (Some huge_count) float_shop
    = Returned [InsufficientStock] float_shop.
Proof.
  split_and!; try (vm_compute; reflexivity).
  eexists. split; vm_compute; reflexivity.
Qed.

(** In binary64: 2 apples by "Add Unit", then 2.5 kg and 1 kg weighed on
    top, at 80.00 each. *)
Lemma adds_accumulate_witness :
  adds_up (of_int 80) (of_int 2 : float) [AddWeighted 2.5%float; AddWeighted 1%float]
  ∧ ∃ st' l,
      run_adds "W-APPLE" [AddUnit 2; AddWeighted 2.5%float; AddWeighted 1%float]
        float_shop = Some st'
      ∧ cart_get "W-APPLE" (cart st') = Some l
      ∧ quantity l = 5.5%float
      ∧ line_total l = nmul (unit_price l) (quantity l).
Proof.
  assert (Hsum : adds_up (of_int 80) (of_int 2 : float)
                   [AddWeighted 2.5%float; AddWeighted 1%float]).
  { cbn [adds_up]. split_and!; [vm_compute; reflexivity .. | exact I]. }
  split; [exact Hsum |].
  destruct (run_adds "W-APPLE" [AddUnit 2; AddWeighted 2.5%float; AddWeighted 1%float]
              float_shop) as [st'|] eqn:Hrun; [| by vm_compute in Hrun].
  destruct (adds_accumulate "W-APPLE" _ _ float_shop st' ltac:(done) eq_refl Hrun)
    as (l & p & Hl & Hp & Hq & _ & _ & Ht).
  injection Hp as <-.
  exists st', l. split_and!; [done | exact Hl | | exact (Ht Hsum)].
  rewrite Hq. vm_compute. reflexivity.
Defined.

(** In binary64 the total kept by addition can differ from the product:
    0.1 kg and 0.2 kg of apples at 80.00 leave a line total of 24.0 on a
    line whose unit price times quantity is 24.000000000000004. *)
Lemma weighted_total_drifts :
  ∃ st' l,
    run_adds "W-APPLE" [AddWeighted tenth; AddWeighted fifth] float_shop = Some st'
    ∧ cart_get "W-APPLE" (cart st') = Some l
    ∧ quantity l = nadd tenth fifth
    ∧ line_total l = 24%float
    ∧ nmul (unit_price l) (quantity l) = 0x1.8000000000001p+4%float
    ∧ line_total l ≠ nmul (unit_price l) (quantity l).
Proof.
  eexists _, _.
  split_and!; [vm_compute; reflexivity | vm_compute; reflexivity | reflexivity
               | vm_compute; reflexivity | vm_compute; reflexivity |].
  intros Heq. apply (f_equal (λ x, PrimFloat.eqb x 24%float)) in Heq.
  vm_compute in Heq. discriminate.
Qed.

(** C2: 40.00 received for one milk at 50.00 and "abc" in the discount
    entry.  [update_total] counts 0 percent, the amount received is below
    the final total, and [checkout] shows no "amount received is less than
    the total due": [ValueError] leaves it where it reads the discount
    entry again, before it looks at the payment. *)
Lemma short_payment_unreadable_discount :
  cart short_paid_unreadable ≠ []
  ∧ final_total (update_total short_paid_unreadable) = dec 50 1
  ∧ nltb (read_received (received_entry short_paid_unreadable))
         (final_total (update_total short_paid_unreadable)) = true
  ∧ checkout at_ten short_paid_unreadable
    = Raised ValueError (update_total short_paid_unreadable)
  ∧ InsufficientPayment ∉ shown_of (checkout at_ten short_paid_unreadable).
Proof.
  split_and!;
    [by vm_compute | vm_compute; reflexivity | vm_compute; reflexivity
     | reflexivity | apply not_elem_of_nil].
Qed.

(** C6: with a discount entry [float()] cannot read, [update_total] counts
    0 percent, and [checkout], which reads the entry again outside any
    [try], is left by [ValueError]. *)
Lemma checkout_unreadable_discount_raises :
  cart unreadable_discount ≠ []
  ∧ read_discount (discount_entry unreadable_discount)
    = (of_int 0, discount_entry unreadable_discount)
  ∧ checkout at_ten unreadable_discount
    = Raised ValueError (update_total unreadable_discount).
Proof. split_and!; [by vm_compute | reflexivity | reflexivity]. Qed.

(** C7: the weight "nan" passes [weight <= 0] and the stock comparison,
    both false on a NaN, and becomes the quantity of a cart line: the
    invariant holds before the call and not after. *)
Lemma nan_weight_enters_cart :
  cart_invariant float_idle
  ∧ (add_weighted_item "W-APPLE" (Some nan) float_idle).1 = []
  ∧ (∃ l, cart_get "W-APPLE" (cart (add_weighted_item "W-APPLE" (Some nan) float_idle).2)
          = Some l
          ∧ quantity l = nan ∧ nltb (of_int 0) (quantity l) = false)
  ∧ ¬ cart_invariant (add_weighted_item "W-APPLE" (Some nan) float_idle).2.
Proof.
  split_and!.
  - split; [constructor | reflexivity].
  - vm_compute. reflexivity.
  - eexists. split_and!; [vm_compute; reflexivity | reflexivity | vm_compute; reflexivity].
  - intros [Hq _]. vm_compute in Hq. apply Forall_cons in Hq as [Hq _]. discriminate.
Qed.

(** C9 as stated fails: the same shop name, lines and figures give two
    different texts one second apart. *)
Lemma receipt_changes_with_clock :
  receipt_document three_milk (dec 150 1) (dec 0 1) (dec 0 1) (dec 200 1) (dec 50 1)
    "2024-01-01 10:00:00"
  ≠ receipt_document three_milk (dec 150 1) (dec 0 1) (dec 0 1) (dec 200 1) (dec 50 1)
      "2024-01-01 10:00:01".
Proof. apply String.eqb_neq. vm_compute. reflexivity. Qed.

(** The same three milk rung up over different files. *)
Lemma receipt_depends_on_inputs_witness :
  shop_name three_milk = shop_name three_milk_elsewhere
  ∧ (cart three_milk).*2 = (cart three_milk_elsewhere).*2
  ∧ subtotal three_milk = subtotal three_milk_elsewhere
  ∧ disk three_milk ≠ disk three_milk_elsewhere
  ∧ receipt_document three_milk (dec 150 1) (dec 0 1) (dec 0 1) (dec 200 1) (dec 50 1)
      "2024-01-01 10:00:00"
    = receipt_document three_milk_elsewhere (dec 150 1) (dec 0 1) (dec 0 1) (dec 200 1)
        (dec 50 1) "2024-01-01 10:00:00".
Proof.
  assert (Hn : shop_name three_milk = shop_name three_milk_elsewhere) by reflexivity.
  assert (Hc : (cart three_milk).*2 = (cart three_milk_elsewhere).*2) by reflexivity.
  assert (Hs : subtotal three_milk = subtotal three_milk_elsewhere) by reflexivity.
  split_and!; [exact Hn | exact Hc | exact Hs | |].
  - intros H. apply (f_equal sales_log_db) in H. discriminate H.
  - exact (receipt_depends_on_inputs three_milk three_milk_elsewhere _ _ _ _ _ _ Hn Hc Hs).
Defined.

(** C10 as stated fails: "Add Unit" on apples already weighed into the
    cart succeeds and leaves a line that is weighted and holds 3.5. *)
Lemma unit_add_joins_weighted_line :
  is_weighted_barcode "W-APPLE" = true
  ∧ ∃ st' l,
      scan_item "W-APPLE" (Some 1) weighed_apples = Returned [] st'
      ∧ cart_get "W-APPLE" (cart st') = Some l
      ∧ is_weighted l = true
      ∧ quantity l = nadd (dec 5 2) (of_int 1)
      ∧ ∀ n : Z, quantity l ≠ of_int n.
Proof.
  split; [reflexivity |].
  eexists _, _.
  split_and!; [vm_compute; reflexivity | vm_compute; reflexivity | reflexivity
               | reflexivity |].
  intros n Hn. apply (f_equal (λ x : Qc, this x)) in Hn.
  assert (Hq : Qeq (7 # 2) (inject_Z n)).
  { transitivity (this (of_int n : Qc)); [by rewrite <- Hn | apply Qred_correct]. }
  unfold Qeq in Hq. cbn in Hq. lia.
Qed.

(** "Add Unit" on the apples, with no line for them yet. *)
Lemma scan_item_line_witness :
  is_weighted_barcode "W-APPLE" = true
  ∧ ∃ st' l,
      scan_item "W-APPLE" (Some 2) idle = Returned [] st'
      ∧ cart_get "W-APPLE" (cart st') = Some l
      ∧ is_weighted l = false ∧ quantity l = of_int 2.
Proof.
  destruct (scan_item_line "W-APPLE" 2 apple idle) as (Hok & Hline);
    [done | reflexivity |].
  destruct Hok as (st' & Hok); [lia | vm_compute; reflexivity | reflexivity |].
  split; [reflexivity |].
  destruct (Hline st' Hok) as (Hnew & _).
  destruct (Hnew eq_refl) as (l & Hl & Hw & Hq & _).
  exists st', l. by split_and!.
Defined.

(** ** The order of the exact decimals *)

Lemma Qc_ltb_lt (x y : Qc) : Qc_ltb x y = true ↔ Qclt x y.
Proof.
  unfold Qc_ltb. rewrite Qclt_alt. destruct (Qccompare x y); split; congruence.
Qed.

Lemma Qc_leb_false (x y : Qc) : Qc_leb x y = false → Qc_ltb y x = true.
Proof.
  unfold Qc_leb. destruct (Qccompare x y) eqn:Hc; try discriminate. intros _.
  apply Qc_ltb_lt. by apply Qcgt_alt.
Qed.

Lemma Qc_of_int_pos (q : Z) : 0 < q → Qc_ltb (Qc_of_int 0) (Qc_of_int q) = true.
Proof.
  intros Hq. apply Qc_ltb_lt. unfold Qclt, Qc_of_int, Q2Qc. cbn [this].
  rewrite !Qred_correct. unfold Qlt. cbn. lia.
Qed.

Lemma Qc_add_pos (a a' : Qc) :
  Qc_ltb (Qc_of_int 0) a = true → Qc_ltb (Qc_of_int 0) a' = true →
  Qc_ltb (Qc_of_int 0) (Qcplus a a') = true.
Proof.
  rewrite !Qc_ltb_lt. unfold Qclt. cbn [this Qcplus Q2Qc]. rewrite Qred_correct.
  change (this (Qc_of_int 0)) with (0 # 1)%Q. intros Ha Ha'.
  exact (Qplus_lt_le_compat (0 # 1) (this a) (0 # 1) (this a') Ha
           (Qlt_le_weak _ _ Ha')).
Qed.

(** Three milk in the cart, then 2.5 kg of apples, then the milk removed. *)
Lemma cart_invariant_preserved_witness :
  cart_invariant three_milk
  ∧ cart_invariant (add_weighted_item "W-APPLE" (Some (dec 5 2)) three_milk).2
  ∧ cart_invariant (remove_selected_item (Some 0%nat) true three_milk).2.
Proof.
  assert (H0 : cart_invariant three_milk).
  { split; [| reflexivity]. repeat constructor. }
  destruct (cart_invariant_preserved three_milk H0) as (_ & Hw & Hr & _).
  split_and!; [exact H0 | | apply Hr].
  apply (Hw Qc_add_pos). intros x _. exact (Qc_leb_false x (Qc_of_int 0)).
Defined.

(** * The billing screen as a whole *)

Section Billing.

Context {num : Type} `{!Arith num} `{!Show num} `{!ArithSign num}.

Implicit Types (c : Cart (num:=num)) (st : State (num:=num)).
Implicit Types (inv : gmap string (StockEntry (num:=num))).

(** ** One line per barcode *)

Lemma cart_set_keys_present b v c : b ∈ c.*1 → (cart_set b v c).*1 = c.*1.
Proof. intros Hb. rewrite cart_set_keys. by rewrite decide_True. Qed.

Lemma cart_get_is_Some b c : is_Some (cart_get b c) ↔ b ∈ c.*1.
Proof.
  rewrite <- not_eq_None_Some, cart_get_None.
  split; [apply dec_stable | by intros ? ?].
Qed.

(** X3: the cart never holds two lines for one barcode, and a line keeps
    its place: from a cart with unique barcodes every operation of the
    billing screen leaves a cart with unique barcodes; an add on a barcode
    already in the cart leaves the order of the lines as it is, and an add
    on a new one puts its line last. *)
Theorem cart_keys_stay_unique st :
  NoDup (cart st).*1 →
  (∀ b q, NoDup (cart (state_of (scan_item b q st))).*1)
  ∧ (∀ b w, NoDup (cart (add_weighted_item b w st).2).*1)
  ∧ (∀ selection answer, NoDup (cart (remove_selected_item selection answer st).2).*1)
  ∧ (∀ i, match checkout i st with
          | Returned _ st' | Raised _ st' => NoDup (cart st').*1
          end)
  ∧ (∀ b q, (cart (state_of (scan_item b q st))).*1 = (cart st).*1
            ∨ ((b ∉ (cart st).*1)
               ∧ (cart (state_of (scan_item b q st))).*1 = (cart st).*1 ++ [b]))
  ∧ (∀ b w, (cart (add_weighted_item b w st).2).*1 = (cart st).*1
            ∨ ((b ∉ (cart st).*1)
               ∧ (cart (add_weighted_item b w st).2).*1 = (cart st).*1 ++ [b])).
Proof.
  intros Hnd.
  assert (Hscan : ∀ b q, (cart (state_of (scan_item b q st))).*1 = (cart st).*1
            ∨ ((b ∉ (cart st).*1)
               ∧ (cart (state_of (scan_item b q st))).*1 = (cart st).*1 ++ [b])).
  { intros b q.
    destruct (scan_item_cases b q st)
      as [[_ ->] | [[s ->] | [-> | (n & p & _ & _ & _ & _ & _ & _ & ->)]]];
      cbn [state_of]; try (by left).
    rewrite update_total_cart. cbn [with_cart cart]. rewrite cart_set_keys.
    destruct (decide (b ∈ (cart st).*1)); [by left | by right]. }
  assert (Hweigh : ∀ b w, (cart (add_weighted_item b w st).2).*1 = (cart st).*1
            ∨ ((b ∉ (cart st).*1)
               ∧ (cart (add_weighted_item b w st).2).*1 = (cart st).*1 ++ [b])).
  { intros b w. unfold add_weighted_item. repeat case_match; cbn [snd]; try (by left).
    rewrite update_total_cart. cbn [with_cart cart]. rewrite cart_set_keys.
    case_decide; [by left | right; by split]. }
  assert (Hext : ∀ b (ks : list string), ks = (cart st).*1
                   ∨ ((b ∉ (cart st).*1) ∧ ks = (cart st).*1 ++ [b]) → NoDup ks).
  { intros b ks [-> | [Hb ->]]; [done |].
    apply NoDup_app. split_and!; [done | | apply NoDup_singleton].
    intros x Hx ->%list_elem_of_singleton. done. }
  split_and!; [| | | | exact Hscan | exact Hweigh].
  - intros b q. by eapply Hext.
  - intros b w. by eapply Hext.
  - intros selection answer. unfold remove_selected_item.
    repeat case_match; cbn [snd]; try done.
    rewrite update_total_cart. cbn [with_cart cart]. by apply cart_del_NoDup.
  - intros i.
    assert (Hu : NoDup (cart (update_total st)).*1)
      by (by rewrite update_total_cart).
    destruct (checkout_cases i st)
      as [-> | [-> | [-> | [-> | (f & da & dp & r & ch & _ & _ & ->)]]]]; try done.
    rewrite commit_eq. cbn [snd]. unfold clear_cart. rewrite update_total_cart.
    cbn [cart]. apply NoDup_nil_2.
Qed.

(** ** Calls that are turned down *)

(** X4: a press of "Add Unit", "Add Weight" or "Remove Selected Item"
    shows at most one message box, and a press that shows one, or that is
    left by an exception, leaves the cart, the totals, the discount and the
    received entry, the loaded catalog and inventory and the files exactly
    as they were.  (The barcode entry and the other entries of the add
    forms are not part of the state: a press of "Add Unit" that shows a box
    empties the barcode entry.) *)
Theorem rejected_calls_change_nothing st :
  (∀ b q, match scan_item b q st with
          | Returned [] _ => True
          | Returned (s :: more) st' => more = [] ∧ st' = st
          | Raised _ st' => st' = st
          end)
  ∧ (∀ b w, (add_weighted_item b w st).1 = []
            ∨ ∃ s, add_weighted_item b w st = ([s], st))
  ∧ (∀ selection answer,
       (remove_selected_item selection answer st).1 = []
       ∨ ∃ s, remove_selected_item selection answer st = ([s], st)).
Proof.
  split_and!.
  - intros b q.
    by destruct (scan_item_cases b q st)
      as [[_ ->] | [[s ->] | [-> | (n & p & _ & _ & _ & _ & _ & _ & ->)]]].
  - intros b w.
    destruct (add_weighted_item_cases b w st)
      as [[s ->] | (x & p & _ & _ & _ & _ & _ & ->)]; eauto.
  - intros selection answer.
    destruct (remove_selected_item_cases selection answer st)
      as [[s ->] | [-> | [k ->]]]; eauto.
Qed.

(** ** Recomputing the totals *)

Lemma read_discount_twice (e : entry (num:=num)) :
  read_discount (read_discount e).2 = read_discount e.
Proof.
  destruct e as [| |p]; cbn [read_discount snd]; [done | done |].
  destruct (in_range p) eqn:Hp; cbn [read_discount snd].
  - by rewrite Hp.
  - by case_match.
Qed.

(** X5: recomputing the totals twice is recomputing them once: a second
    [update_total] with nothing typed in between changes neither the
    subtotal, nor the final total, nor the discount entry. *)
Theorem update_total_idempotent st :
  update_total (update_total st) = update_total st.
Proof.
  unfold update_total at 1.
  rewrite update_total_cart, update_total_discount_entry, read_discount_twice.
  unfold update_total.
  destruct (read_discount (discount_entry st)) as [p e]. done.
Qed.

End Billing.

Section Stock.

Context {num : Type} `{!Arith num} `{!Show num} `{!ArithSign num}.

Implicit Types (c : Cart (num:=num)) (st : State (num:=num)).
Implicit Types (inv : gmap string (StockEntry (num:=num))).

(** ** Lines within the stock *)

Lemma cart_set_Forall_at (P : string * CartLine (num:=num) → Prop) b v c :
  Forall P c → P (b, v) → Forall P (cart_set b v c).
Proof.
  intros Hc Hv. induction c as [|[k x] c IH]; cbn [cart_set].
  - by constructor.
  - apply Forall_cons in Hc as [Hx Hc]. case_decide; constructor; subst; auto.
Qed.

(** X6: no line of the cart is above the stock the screen has loaded.  If
    every line's quantity is within the loaded stock of its barcode, it
    still is after any add or removal: an add is accepted only when the
    whole line, old quantity and new, is covered.  For the first add on a
    barcode the code does not compare with the very quantity the line
    gets: [scan_item] compares the stock with the count as an int and
    stores the count as a float, and [add_weighted_item] compares with
    [0 + weight] and stores the weight.  The premise of each add says that
    this makes no difference for the count, or the weight, passed: a stock
    that is not below the count is not below the count as a float, and
    [0 + weight] is the weight when the weight is not at or below zero
    (which holds of every float, [float_add_zero]). *)
Theorem lines_stay_within_stock st :
  Forall (λ kv, nltb (current_stock kv.1 st) (quantity kv.2) = false) (cart st) →
  (∀ b q,
     (∀ n, q = Some n → nlt_int (current_stock b st) n = false →
           nltb (current_stock b st) (of_int n) = false) →
     let st' := state_of (scan_item b q st) in
     Forall (λ kv, nltb (current_stock kv.1 st') (quantity kv.2) = false) (cart st'))
  ∧ (∀ b w,
     (∀ x, w = Some x → nleb x (of_int 0) = false → nadd (of_int 0) x = x) →
     let st' := (add_weighted_item b w st).2 in
     Forall (λ kv, nltb (current_stock kv.1 st') (quantity kv.2) = false) (cart st'))
  ∧ (∀ selection answer, let st' := (remove_selected_item selection answer st).2 in
     Forall (λ kv, nltb (current_stock kv.1 st') (quantity kv.2) = false) (cart st')).
Proof.
  intros Hin.
  assert (Hstock : ∀ c' k, current_stock k (update_total (with_cart c' st))
                           = current_stock k st).
  { intros c' k. unfold current_stock. by rewrite update_total_inventory. }
  assert (Hset : ∀ b l,
            nltb (current_stock b st) (quantity l) = false →
            let st' := update_total (with_cart (cart_set b l (cart st)) st) in
            Forall (λ kv, nltb (current_stock kv.1 st') (quantity kv.2) = false)
                   (cart st')).
  { intros b l Hl. cbn zeta. rewrite update_total_cart. cbn [with_cart cart].
    eapply Forall_impl
      with (P := λ kv, nltb (current_stock kv.1 st) (quantity kv.2) = false);
      [| intros kv Hkv; by rewrite Hstock].
    by apply cart_set_Forall_at. }
  split_and!.
  - intros b q Hq. cbn zeta.
    destruct (scan_item_cases b q st)
      as [[_ ->] | [[s ->] | [-> | (n & p & _ & -> & _ & _ & Hs & _ & ->)]]];
      cbn [state_of]; [done | done | done |].
    apply Hset. unfold over_stock in Hs.
    destruct (cart_get b (cart st)) as [l|]; cbn [unit_line quantity].
    + destruct (int_fits n); [| done]. by injection Hs.
    + injection Hs as Hs. by apply Hq.
  - intros b w Hw. cbn zeta.
    destruct (add_weighted_item_cases b w st)
      as [[s ->] | (x & p & -> & _ & _ & Hx & Hs & ->)]; cbn [snd]; [done |].
    apply Hset. unfold cart_qty in Hs.
    destruct (cart_get b (cart st)) as [l|]; cbn [weighted_line quantity from_option] in *;
      [done |].
    by rewrite (Hw x eq_refl Hx) in Hs.
  - intros selection answer. cbn zeta.
    destruct (remove_selected_item_cases selection answer st)
      as [[s ->] | [-> | [k ->]]]; cbn [snd]; [done | done |].
    rewrite update_total_cart. cbn [with_cart cart].
    eapply Forall_impl
      with (P := λ kv, nltb (current_stock kv.1 st) (quantity kv.2) = false);
      [| intros kv Hkv; by rewrite Hstock].
    by apply cart_del_Forall.
Qed.

(** ** A checkout without warnings *)

Lemma settle_stock_quiet c inv :
  (∀ s q : num, nltb s q = false → nltb (nsub s q) (of_int 0) = false) →
  NoDup c.*1 →
  Forall (λ kv, ∃ e, inv !! kv.1 = Some e
                     ∧ nltb (stock_quantity e) (quantity kv.2) = false) c →
  (settle_stock c inv).2 = [].
Proof.
  intros Hsub. revert inv.
  induction c as [|[k item] c IH]; intros inv Hnd Hc; [done |].
  rewrite fmap_cons in Hnd. apply NoDup_cons in Hnd as [Hk Hnd].
  apply Forall_cons in Hc as [(e & He & Hle) Hc]. cbn [fst snd] in *.
  rewrite settle_stock_cons. cbn [snd]. unfold settle_line at 1. rewrite He.
  cbn [snd]. rewrite (Hsub _ _ Hle). cbn [app]. apply IH; [done |].
  unfold settle_line. rewrite He. cbn [fst].
  eapply Forall_impl with
    (P := λ kv, kv.1 ∈ c.*1 ∧ ∃ e0, inv !! kv.1 = Some e0
                 ∧ nltb (stock_quantity e0) (quantity kv.2) = false).
  - apply Forall_forall. intros kv Hkv. split.
    + apply list_elem_of_fmap. by exists kv.
    + by apply (proj1 (Forall_forall _ _) Hc).
  - intros kv [Hkv (e0 & He0 & Hle0)]. exists e0. split; [| done].
    rewrite lookup_insert_ne; [done |]. intros ->. done.
Qed.

(** X7: when the ledger file has an entry for every line of the cart and
    every line is within it, the commit of a checkout shows neither the
    negative-stock warning nor the not-in-inventory error (unique barcodes;
    numbers where [s - q] is not below zero when [s] is not below [q]). *)
Theorem commit_without_warnings i final da dp r ch st :
  (∀ s q : num, nltb s q = false → nltb (nsub s q) (of_int 0) = false) →
  NoDup (cart st).*1 →
  Forall (λ kv, ∃ e, inventory_db (disk st) !! kv.1 = Some e
                     ∧ nltb (stock_quantity e) (quantity kv.2) = false) (cart st) →
  let shown := (commit i final da dp r ch st).1 in
  (∀ item_name, NegativeStockWarning item_name ∉ shown)
  ∧ (∀ item_name, CriticalInventoryMismatch item_name ∉ shown).
Proof.
  intros Hsub Hnd Hc. cbn zeta. rewrite commit_eq. cbn [fst].
  rewrite settle_stock_quiet by done. cbn [app generate_receipt fst].
  split.
  - intros n Hn%list_elem_of_singleton. discriminate.
  - intros n Hn%list_elem_of_singleton. discriminate.
Qed.

(** ** A checkout that does not commit *)

(** X8: a checkout that stops before the commit writes nothing.  Whenever
    [checkout] ends without the box "Checkout complete" (empty cart,
    payment short, confirmation declined, or the [ValueError] of an
    unreadable discount), the files, the cart, the loaded catalog and
    inventory and the received entry are the ones before the call. *)
Theorem checkout_without_commit i st :
  match checkout i st with
  | Returned shown st' =>
      (∀ receipt, CheckoutComplete receipt ∉ shown) →
      disk st' = disk st ∧ cart st' = cart st ∧ products st' = products st
      ∧ inventory st' = inventory st ∧ received_entry st' = received_entry st
  | Raised _ st' =>
      disk st' = disk st ∧ cart st' = cart st ∧ products st' = products st
      ∧ inventory st' = inventory st ∧ received_entry st' = received_entry st
  end.
Proof.
  assert (Hu : disk (update_total st) = disk st ∧ cart (update_total st) = cart st
               ∧ products (update_total st) = products st
               ∧ inventory (update_total st) = inventory st
               ∧ received_entry (update_total st) = received_entry st).
  { by rewrite update_total_disk, update_total_cart, update_total_products,
      update_total_inventory, update_total_received_entry. }
  destruct (checkout_cases i st)
    as [-> | [-> | [-> | [-> | (f & da & dp & r & ch & _ & _ & ->)]]]]; try done.
  intros Hno. exfalso. rewrite commit_eq in Hno. cbn [fst] in Hno.
  eapply Hno. apply elem_of_app. right. apply list_elem_of_here.
Qed.

(** ** A checkout that commits *)

Lemma update_total_shop_name st : shop_name (update_total st) = shop_name st.
Proof. unfold update_total. by destruct (read_discount _). Qed.

Lemma clear_cart_resets st :
  cart (clear_cart st) = []
  ∧ discount_entry (clear_cart st) = Typed (of_int 0)
  ∧ received_entry (clear_cart st) = Blank
  ∧ subtotal (clear_cart st) = of_int 0
  ∧ disk (clear_cart st) = disk st
  ∧ products (clear_cart st) = products st
  ∧ inventory (clear_cart st) = inventory st.
Proof.
  unfold clear_cart.
  rewrite update_total_cart, update_total_discount_entry,
    update_total_received_entry, update_total_subtotal, update_total_disk,
    update_total_products, update_total_inventory.
  cbn [cart discount_entry received_entry disk products inventory read_discount].
  split_and!; try done. by case_match.
Qed.

(** X9: a checkout that passes its gates (lines in the cart, a discount
    entry that reads, a payment that covers the total, the confirmation)
    ends with "Checkout complete" as its last box, an empty cart, the
    discount entry back at "0", the received entry empty and a subtotal of
    the empty sum; and the receipt of the sale, with the totals
    [update_total] computed, is in the file named after the clock. *)
Theorem checkout_commits_and_resets i st :
  cart st ≠ [] → discount_entry st ≠ Garbage → confirmed i = true →
  nltb (read_received (received_entry st)) (final_total (update_total st)) = false →
  let sold := update_total st in
  let percent := (read_discount (discount_entry st)).1 in
  let received := read_received (received_entry st) in
  let path := RECEIPT_FOLDER +:+ "/" +:+ "receipt_"
                +:+ file_stamp (receipt_clock i) +:+ ".txt" in
  ∃ warnings st',
    checkout i st = Returned (warnings ++ [CheckoutComplete (Some path)]) st'
    ∧ cart st' = []
    ∧ discount_entry st' = Typed (of_int 0)
    ∧ received_entry st' = Blank
    ∧ subtotal st' = of_int 0
    ∧ ∃ shelf,
        receipt_files (disk st') !! path =
          Some (receipt_document shelf (final_total sold)
                  (nmul (subtotal sold) (ndiv percent (of_int 100))) percent
                  received (nsub received (final_total sold))
                  (date_time (receipt_clock i)))
        ∧ cart shelf = cart st ∧ subtotal shelf = subtotal sold
        ∧ shop_name shelf = shop_name st.
Proof.
  intros Hc He Hi Hpay. cbn zeta.
  pose proof (checkout_gates i st Hc He) as Hgo. cbn zeta in Hgo.
  rewrite Hpay, Hi in Hgo. cbn [negb] in Hgo. rewrite Hgo, commit_eq.
  cbn [fst snd]. eexists _, _. split; [reflexivity |].
  match goal with
  | |- context [clear_cart ?s] =>
      destruct (clear_cart_resets s) as (-> & -> & -> & -> & -> & _)
  end.
  split_and!; try done.
  cbn [disk with_disk generate_receipt snd receipt_files].
  eexists. rewrite lookup_insert_eq. split; [reflexivity |].
  cbn [cart subtotal shop_name with_disk with_inventory refresh_data].
  by rewrite update_total_cart, update_total_shop_name.
Qed.

(** ** Removing a line *)

Lemma cart_del_at c (i : nat) b l :
  NoDup c.*1 → c !! i = Some (b, l) → cart_del b c = delete i c.
Proof.
  revert i. induction c as [|[k x] c IH]; intros i Hnd Hi; [done |].
  rewrite fmap_cons in Hnd. apply NoDup_cons in Hnd as [Hk Hnd]. cbn [cart_del].
  destruct i as [|i]; cbn in Hi.
  - injection Hi as -> ->. by rewrite decide_True.
  - rewrite decide_False.
    + cbn. f_equal. by apply IH.
    + intros ->. apply Hk. cbn [fst]. apply list_elem_of_fmap. exists (b, l).
      split; [done |]. by eapply list_elem_of_lookup_2.
Qed.

Lemma cart_get_del_eq b c : NoDup c.*1 → cart_get b (cart_del b c) = None.
Proof.
  induction c as [|[k x] c IH]; cbn [cart_del cart_get]; [done |].
  rewrite fmap_cons. intros [Hk Hnd]%NoDup_cons. cbn [fst] in Hk.
  case_decide as Hkb.
  - subst k. by apply cart_get_None.
  - cbn [cart_get]. rewrite decide_False by done. by apply IH.
Qed.

Lemma cart_get_del_ne b b' c : b' ≠ b → cart_get b' (cart_del b c) = cart_get b' c.
Proof.
  intros Hne. induction c as [|[k x] c IH]; cbn [cart_del cart_get]; [done |].
  case_decide as Hkb.
  - subst k. by rewrite decide_False.
  - cbn [cart_get]. by rewrite IH.
Qed.

(** X10: "Remove Selected Item" removes the line whose row is selected
    and nothing else.  Row [n] of the cart list is the row of the [n]-th
    line; removing it, once confirmed, leaves the other lines as they were
    and in their order, with the subtotal recomputed over them.  A declined
    confirmation changes nothing, and an index past the end is answered
    "Invalid selection." *)
Theorem remove_selected_line st (n : nat) b l :
  NoDup (cart st).*1 → cart st !! n = Some (b, l) →
  update_cart_display st !! n = Some (cart_row l)
  ∧ remove_selected_item (Some n) false st = ([], st)
  ∧ (remove_selected_item (Some n) true st).1 = []
  ∧ cart (remove_selected_item (Some n) true st).2 = delete n (cart st)
  ∧ cart_get b (cart (remove_selected_item (Some n) true st).2) = None
  ∧ (∀ b', b' ≠ b →
       cart_get b' (cart (remove_selected_item (Some n) true st).2)
       = cart_get b' (cart st))
  ∧ subtotal (remove_selected_item (Some n) true st).2 = cart_sum (delete n (cart st))
  ∧ (∀ m answer, (length (cart st) ≤ m)%nat →
       remove_selected_item (Some m) answer st = ([LineNotFound], st)).
Proof.
  intros Hnd Hn. unfold Cart in *.
  assert (Hkey : (cart st).*1 !! n = Some b) by (by rewrite list_lookup_fmap, Hn).
  assert (Hdel : cart (remove_selected_item (Some n) true st).2 = delete n (cart st)).
  { unfold remove_selected_item. rewrite Hkey. cbn [snd].
    rewrite update_total_cart. cbn [with_cart cart]. by eapply cart_del_at. }
  assert (Hnd' : NoDup (delete n (cart st)).*1).
  { rewrite <- (cart_del_at _ _ b l) by done. by apply cart_del_NoDup. }
  split_and!.
  - unfold update_cart_display. by rewrite list_lookup_fmap, Hn.
  - unfold remove_selected_item. by rewrite Hkey.
  - unfold remove_selected_item. by rewrite Hkey.
  - exact Hdel.
  - rewrite Hdel, <- (cart_del_at _ _ b l) by done. by apply cart_get_del_eq.
  - intros b' Hne. rewrite Hdel, <- (cart_del_at _ _ b l) by done.
    by apply cart_get_del_ne.
  - unfold remove_selected_item. rewrite Hkey. cbn [snd].
    rewrite update_total_subtotal. cbn [with_cart cart].
    f_equal. by eapply cart_del_at.
  - intros m answer Hm. unfold remove_selected_item.
    rewrite (lookup_ge_None_2 (cart st).*1 m); [done |]. by rewrite length_fmap.
Qed.

End Stock.

(** * The inventory screen and the low-stock dot *)

Section Inventory.

Context {num : Type} `{!Arith num} `{!Show num} `{!ArithSign num}.

Implicit Types (st : State (num:=num)) (d : Disk (num:=num)).
Implicit Types (fr : InventoryFrame.Frame (num:=num)).

(** X11: the red dot is on exactly when some product of the catalog file
    has a quantity below 20 in the ledger file, a product without ledger
    entry counting as 0; ledger entries of barcodes that are not in the
    catalog play no part. *)
Theorem check_for_low_stock_spec d :
  check_for_low_stock d = true ↔
  ∃ barcode product,
    products_db d !! barcode = Some product
    ∧ nltb (from_option stock_quantity (of_int 0) (inventory_db d !! barcode))
           (of_int LOW_STOCK_THRESHOLD) = true.
Proof.
  unfold check_for_low_stock. rewrite existsb_exists. split.
  - intros (b & Hin & Hlow). apply list_elem_of_In, list_elem_of_fmap in Hin
      as ([b' p] & -> & Hin). apply elem_of_map_to_list in Hin. by exists b', p.
  - intros (b & p & Hp & Hlow). exists b. split; [| done].
    apply list_elem_of_In, list_elem_of_fmap. exists (b, p). split; [done |].
    by apply elem_of_map_to_list.
Qed.

(** X12: "Add/Update Product" with a barcode, a name and two numbers adds
    the quantity typed to the quantity the screen has loaded for the
    barcode (0 for a new one) and replaces name and price; both files are
    written with the screen's dicts so changed, every other product as the
    screen had it; the sales log and the receipts are not touched.  With a
    number that does not read, or without barcode or name, nothing
    changes. *)
Theorem add_update_product_spec barcode name price quantity fr d :
  barcode ≠ "" → name ≠ "" →
  let old := from_option stock_quantity (of_int 0)
               (InventoryFrame.frame_inventory fr !! barcode) in
  let r := InventoryFrame.add_update_product barcode name (Some price)
             (Some quantity) fr d in
  r.1.1 = [InventoryFrame.ProductUpdated name (nadd old quantity)]
  ∧ products_db r.2 !! barcode = Some {| product_name := name; price := price |}
  ∧ inventory_db r.2 !! barcode = Some {| stock_quantity := nadd old quantity |}
  ∧ (∀ other, other ≠ barcode →
       products_db r.2 !! other = InventoryFrame.frame_products fr !! other
       ∧ inventory_db r.2 !! other = InventoryFrame.frame_inventory fr !! other)
  ∧ sales_log_db r.2 = sales_log_db d ∧ receipt_files r.2 = receipt_files d
  ∧ r.1.2 = InventoryFrame.refresh_data r.2
  ∧ (∀ b n p q, p = None ∨ q = None ∨ b = "" ∨ n = "" →
       (InventoryFrame.add_update_product b n p q fr d).1.2 = fr
       ∧ (InventoryFrame.add_update_product b n p q fr d).2 = d).
Proof.
  intros Hb Hn. cbn zeta. unfold InventoryFrame.add_update_product.
  rewrite !bool_decide_eq_false_2 by done. cbn [orb fst snd].
  cbn [InventoryFrame.save_catalog products_db inventory_db sales_log_db receipt_files].
  split_and!; try done.
  - apply lookup_insert_eq.
  - apply lookup_insert_eq.
  - intros other Hne. by rewrite !lookup_insert_ne.
  - intros b n p q Hbad. destruct p, q; try done.
    destruct (bool_decide (b = "")) eqn:Eb, (bool_decide (n = "")) eqn:En;
      cbn [orb fst snd]; try done.
    apply bool_decide_eq_false in Eb, En.
    by destruct Hbad as [? | [? | [? | ?]]].
Qed.

(** X13: "Delete Product", once confirmed, removes a product the screen
    knows from the catalog file and from the ledger file and leaves every
    other product as the screen had it; a barcode the screen does not know
    is answered "Product not found." and a declined confirmation changes
    nothing.  Deleting a product right after adding it under a barcode
    that was new gives back the catalog and the ledger from before. *)
Theorem delete_product_spec barcode fr d :
  barcode ≠ "" →
  (∀ product, InventoryFrame.frame_products fr !! barcode = Some product →
     let r := InventoryFrame.delete_product barcode true fr d in
     r.1.1 = [InventoryFrame.ProductDeleted barcode]
     ∧ products_db r.2 !! barcode = None ∧ inventory_db r.2 !! barcode = None
     ∧ (∀ other, other ≠ barcode →
          products_db r.2 !! other = InventoryFrame.frame_products fr !! other
          ∧ inventory_db r.2 !! other = InventoryFrame.frame_inventory fr !! other)
     ∧ InventoryFrame.delete_product barcode false fr d = ([], fr, d))
  ∧ (InventoryFrame.frame_products fr !! barcode = None →
     ∀ answer, InventoryFrame.delete_product barcode answer fr d
               = ([InventoryFrame.ProductNotFound], fr, d))
  ∧ (InventoryFrame.frame_products fr !! barcode = None →
     InventoryFrame.frame_inventory fr !! barcode = None →
     ∀ name price quantity, name ≠ "" →
       let added := InventoryFrame.add_update_product barcode name (Some price)
                      (Some quantity) fr d in
       let r := InventoryFrame.delete_product barcode true added.1.2 added.2 in
       products_db r.2 = InventoryFrame.frame_products fr
       ∧ inventory_db r.2 = InventoryFrame.frame_inventory fr).
Proof.
  intros Hb. split_and!.
  - intros product Hp. cbn zeta. unfold InventoryFrame.delete_product.
    rewrite bool_decide_eq_false_2 by done. rewrite Hp. cbn [negb fst snd].
    cbn [InventoryFrame.save_catalog products_db inventory_db].
    split_and!; try done.
    + apply lookup_delete_eq.
    + apply lookup_delete_eq.
    + intros other Hne. by rewrite !lookup_delete_ne.
  - intros Hp answer. unfold InventoryFrame.delete_product.
    rewrite bool_decide_eq_false_2 by done. by rewrite Hp.
  - intros Hp Hi name price quantity Hn. cbn zeta.
    unfold InventoryFrame.add_update_product.
    rewrite !bool_decide_eq_false_2 by done. cbn [orb fst snd].
    unfold InventoryFrame.delete_product.
    rewrite bool_decide_eq_false_2 by done.
    cbn [InventoryFrame.refresh_data InventoryFrame.frame_products
         InventoryFrame.frame_inventory InventoryFrame.save_catalog
         products_db inventory_db].
    rewrite lookup_insert_eq. cbn [negb snd InventoryFrame.save_catalog
      products_db inventory_db].
    by rewrite !delete_insert_id.
Qed.

(** X14: stock entered on the inventory screen is what the billing screen
    sells from once the operator is back on it.  After "Add/Update
    Product" on an inventory screen showing the files, and the reload that
    showing the billing screen does, the stock compared for the barcode is
    the old quantity plus the one added and the catalog has the new name
    and price; the cart is as it was, its lines keeping the name and the
    unit price they were added with. *)
Theorem restock_reaches_billing barcode name price quantity st :
  barcode ≠ "" → name ≠ "" →
  let fr := InventoryFrame.refresh_data (disk st) in
  let d := (InventoryFrame.add_update_product barcode name (Some price)
              (Some quantity) fr (disk st)).2 in
  let st' := refresh_data (with_disk d st) in
  current_stock barcode st' =
    nadd (from_option stock_quantity (of_int 0) (inventory_db (disk st) !! barcode))
         quantity
  ∧ products st' !! barcode = Some {| product_name := name; price := price |}
  ∧ (∀ other, other ≠ barcode →
       current_stock other st' =
         from_option stock_quantity (of_int 0) (inventory_db (disk st) !! other))
  ∧ cart st' = cart st.
Proof.
  intros Hb Hn. cbn zeta. unfold InventoryFrame.add_update_product.
  rewrite !bool_decide_eq_false_2 by done. cbn [orb fst snd].
  unfold current_stock.
  cbn [refresh_data with_disk inventory products cart disk
       InventoryFrame.save_catalog products_db inventory_db
       InventoryFrame.refresh_data InventoryFrame.frame_products
       InventoryFrame.frame_inventory].
  split_and!; try done.
  - by rewrite lookup_insert_eq.
  - by rewrite lookup_insert_eq.
  - intros other Hne. by rewrite lookup_insert_ne.
Qed.

End Inventory.

(** * The sales chart *)

Section Analytics.

Context {num : Type} `{!Arith num}.

Implicit Types (ps : list (string * num)) (sales : list (SaleRecord (num:=num))).

Import AnalyticsFrame.

Lemma sales_get_set_eq n v ps : sales_get n (sales_set n v ps) = Some v.
Proof.
  induction ps as [|[k x] ps IH]; cbn [sales_set sales_get].
  - by case_decide.
  - destruct (decide (k = n)) as [->|Hne]; cbn [sales_get]; by case_decide.
Qed.

Lemma sales_get_set_ne n n' v ps :
  n ≠ n' → sales_get n' (sales_set n v ps) = sales_get n' ps.
Proof.
  intros Hne. induction ps as [|[k x] ps IH]; cbn [sales_set sales_get].
  - by case_decide.
  - destruct (decide (k = n)) as [->|Hkn]; cbn [sales_get];
      repeat case_decide; congruence.
Qed.

Lemma sales_set_keys n v ps :
  (sales_set n v ps).*1 = if decide (n ∈ ps.*1) then ps.*1 else ps.*1 ++ [n].
Proof.
  induction ps as [|[k x] ps IH]; cbn [sales_set].
  - rewrite decide_False; [done | apply not_elem_of_nil].
  - destruct (decide (k = n)) as [->|Hne]; rewrite !fmap_cons; cbn [fst].
    + rewrite decide_True; [done | apply list_elem_of_here].
    + rewrite IH. destruct (decide (n ∈ ps.*1)) as [Hin|Hnin].
      * rewrite decide_True; [done | by apply list_elem_of_further].
      * rewrite decide_False; [done |].
        rewrite not_elem_of_cons. split; [congruence | done].
Qed.

Lemma product_sales_snoc sales r :
  product_sales (sales ++ [r]) =
    sales_set (log_name r)
      (nadd (default (of_int 0) (sales_get (log_name r) (product_sales sales)))
            (log_quantity r))
      (product_sales sales).
Proof. unfold product_sales. by rewrite fold_left_app. Qed.

(** The quantities sold under [n], in the order of the log. *)
Lemma sold_under_snoc (n : string) sales r :
  (log_quantity <$> filter (λ s, log_name s = n) (sales ++ [r])) =
  (log_quantity <$> filter (λ s, log_name s = n) sales)
    ++ (if decide (log_name r = n) then [log_quantity r] else []).
Proof.
  rewrite filter_app, fmap_app. f_equal.
  rewrite filter_cons, filter_nil. by case_decide.
Qed.

(** X15: the chart adds up, per product name, everything the sales log
    holds under that name.  The quantity the aggregation keeps for a name
    is the sum, taken from 0 in log order, of the quantities of the records
    with that name; a name has an entry exactly when the log has a record
    with it, and no name has two. *)
Theorem product_sales_totals sales :
  (∀ n,
     sales_get n (product_sales sales) =
       match log_quantity <$> filter (λ s, log_name s = n) sales with
       | [] => None
       | qs => Some (fold_left nadd qs (of_int 0))
       end)
  ∧ NoDup (product_sales sales).*1.
Proof.
  induction sales as [|r sales [IHget IHnd]] using rev_ind.
  - split; [done | apply NoDup_nil_2].
  - rewrite product_sales_snoc. split.
    + intros n. rewrite sold_under_snoc. destruct (decide (log_name r = n)) as [<-|Hne].
      * rewrite sales_get_set_eq, IHget.
        destruct (log_quantity <$> filter _ sales) as [|q qs]; cbn [app default]; [done |].
        by rewrite app_comm_cons, fold_left_app.
      * rewrite sales_get_set_ne by done. by rewrite app_nil_r.
    + rewrite sales_set_keys. case_decide as Hin; [done |].
      apply NoDup_app. split_and!; [done | | apply NoDup_singleton].
      intros x Hx ->%list_elem_of_singleton. done.
Qed.

Lemma sales_set_nonempty n v ps : sales_set n v ps ≠ [].
Proof. destruct ps as [|[k x] ps]; cbn [sales_set]; [done |]. by case_decide. Qed.

Lemma product_sales_nonempty r sales : product_sales (r :: sales) ≠ [].
Proof.
  destruct (r :: sales) as [|r' sales'] eqn:Hs using rev_ind; [done |].
  rewrite product_sales_snoc. apply sales_set_nonempty.
Qed.

(** ** The order of the bars *)

Lemma insert_desc_perm item ps : insert_desc item ps ≡ₚ item :: ps.
Proof.
  induction ps as [|y ps IH]; cbn [insert_desc]; [done |].
  case_match; [| done]. rewrite IH. apply Permutation_swap.
Qed.

Lemma sorted_sales_perm ps : sorted_sales ps ≡ₚ ps.
Proof.
  induction ps as [|x ps IH]; cbn [sorted_sales foldr]; [done |].
  rewrite insert_desc_perm. by f_equiv.
Qed.

Lemma descending_cons x ps :
  descending (x :: ps) ↔
  (∀ y, head ps = Some y → nltb x.2 y.2 = false) ∧ descending ps.
Proof.
  split.
  - intros H. split.
    + intros y Hy. apply (H 0%nat x y); [done |]. by destruct ps; simplify_eq/=.
    + intros i a b Ha Hb. by apply (H (S i) a b).
  - intros [Hh Ht] [|i] a b Ha Hb; simplify_eq/=.
    + apply Hh. by destruct ps; simplify_eq/=.
    + by apply (Ht i).
Qed.

Lemma insert_desc_descending item ps :
  (∀ a b : num, nltb a b = true → nltb b a = false) →
  descending ps → descending (insert_desc item ps).
Proof.
  intros Hasym. induction ps as [|y ps IH]; intros Hd; cbn [insert_desc].
  - by intros [|i] a b Ha Hb; simplify_eq/=.
  - apply descending_cons in Hd as [Hh Ht]. destruct (nltb item.2 y.2) eqn:Hlt.
    + apply descending_cons. split; [| by apply IH].
      intros z Hz. destruct ps as [|y' ps]; cbn [insert_desc] in Hz.
      * injection Hz as <-. by apply Hasym.
      * destruct (nltb item.2 y'.2); injection Hz as <-; [by apply Hh | by apply Hasym].
    + apply descending_cons. split.
      * intros z [= <-]. done.
      * by apply descending_cons.
Qed.

(** X16: the bars of the chart are the aggregated names and quantities,
    each once, largest first: along the bars no quantity is followed by a
    higher one (on numbers where [a < b] excludes [b < a]).  A log that is
    missing, empty or no list gives "No sales data found." *)
Theorem chart_bars_descend d :
  (∀ a b : num, nltb a b = true → nltb b a = false) →
  (sales_log_db d = None ∨ sales_log_db d = Some [] → refresh_data d = NoData)
  ∧ (∀ r sales, sales_log_db d = Some (r :: sales) →
       ∃ bars, refresh_data d = Bars bars.*1 bars.*2
               ∧ bars ≡ₚ product_sales (r :: sales)
               ∧ descending bars).
Proof.
  intros Hasym. split.
  - unfold refresh_data. by intros [-> | ->].
  - intros r sales Hlog. unfold refresh_data. rewrite Hlog.
    destruct (product_sales (r :: sales)) as [|p ps] eqn:Hps;
      [by apply product_sales_nonempty in Hps |].
    exists (sorted_sales (p :: ps)). split_and!; [done | apply sorted_sales_perm |].
    generalize (p :: ps). intros l. induction l as [|x l IH]; cbn [sorted_sales foldr].
    + by intros [|i] a b Ha Hb; simplify_eq/=.
    + by apply insert_desc_descending.
Qed.

End Analytics.

(** * The receipt on paper and on screen *)

Lemma length_append (s1 s2 : string) :
  String.length (s1 +:+ s2) = (String.length s1 + String.length s2)%nat.
Proof. induction s1 as [|a s1 IH]; simpl; [done | by f_equal]. Qed.

Lemma length_repeat_char a (n : nat) : String.length (repeat_char a n) = n.
Proof. induction n as [|n IH]; simpl; [done | by f_equal]. Qed.

Lemma length_take_chars (n : nat) s :
  String.length (take_chars n s) = (n `min` String.length s)%nat.
Proof.
  unfold take_chars. revert s.
  induction n as [|n IH]; intros [|a s]; simpl; try done. by f_equal.
Qed.

Lemma length_ljust (w : nat) s :
  String.length (ljust w s) = (w `max` String.length s)%nat.
Proof. unfold ljust. rewrite length_append, length_repeat_char. lia. Qed.

Lemma length_rjust (w : nat) s :
  String.length (rjust w s) = (w `max` String.length s)%nat.
Proof. unfold rjust. rewrite length_append, length_repeat_char. lia. Qed.

Section Receipt.

Context {num : Type} `{!Arith num} `{!Show num} `{!ArithSign num}.

Implicit Types (st : State (num:=num)).

(** X17: a receipt has seven lines of heading, one line per cart line in
    cart order, and ten lines of totals and closing.  In an item line the
    name takes exactly 24 columns however long it is, and the whole line is
    40 columns wide as long as the quantity and the amount fit their 8
    columns; wider figures are printed in full and push the line out. *)
Theorem receipt_layout st final da dp r ch date_time :
  length (receipt_lines st final da dp r ch date_time) = (17 + length (cart st))%nat
  ∧ (∀ (n : nat) b l, cart st !! n = Some (b, l) →
       receipt_lines st final da dp r ch date_time !! (7 + n)%nat
       = Some (receipt_item l))
  ∧ (∀ item : CartLine (num:=num),
       String.length (ljust 24 (take_chars 24 (name item))) = 24%nat
       ∧ String.length (receipt_item item) =
           ((8 `max` String.length (qty_display item)) + 24
            + (8 `max` String.length (CURRENCY_SYMBOL +:+ fmt_fixed 2 (line_total item))))%nat).
Proof.
  split_and!.
  - unfold receipt_lines. cbv zeta. rewrite !length_app, length_map. cbn [length]. lia.
  - intros n b l Hn. unfold receipt_lines. cbv zeta. unfold Cart in *.
    rewrite lookup_app_r by (cbn [length]; lia).
    rewrite lookup_app_l.
    + cbn [length]. replace (7 + n - 7)%nat with n by lia.
      by rewrite list_lookup_fmap, Hn.
    + rewrite length_map. cbn [length].
      apply lookup_lt_Some in Hn. lia.
  - intros item.
    assert (Hname : String.length (ljust 24 (take_chars 24 (name item))) = 24%nat)
      by (rewrite length_ljust, length_take_chars; lia).
    split; [exact Hname |].
    unfold receipt_item. cbn zeta.
    rewrite !length_append, Hname, length_ljust, length_rjust, !length_append. lia.
Qed.

(** X18: a receipt written by [generate_receipt] is the text the bill
    viewer shows for its file name, "receipt_" followed by the clock's
    stamp; every bill under another name shows as before, and so an
    earlier bill written within the same second is replaced.  Catalog,
    ledger and sales log are not touched. *)
Theorem receipt_can_be_viewed st final da dp r ch clock :
  let g := generate_receipt st final da dp r ch clock in
  let filename := "receipt_" +:+ file_stamp clock +:+ ".txt" in
  g.1 = Some (RECEIPT_FOLDER +:+ "/" +:+ filename)
  ∧ BillHistoryFrame.load_selected_bill filename g.2
    = BillHistoryFrame.BillText
        (receipt_document st final da dp r ch (date_time clock))
  ∧ (∀ other, other ≠ filename →
       BillHistoryFrame.load_selected_bill other g.2
       = BillHistoryFrame.load_selected_bill other (disk st))
  ∧ products_db g.2 = products_db (disk st)
  ∧ inventory_db g.2 = inventory_db (disk st)
  ∧ sales_log_db g.2 = sales_log_db (disk st).
Proof.
  cbn zeta. unfold generate_receipt, BillHistoryFrame.load_selected_bill.
  cbn [fst snd receipt_files products_db inventory_db sales_log_db].
  split_and!; try done.
  - by rewrite lookup_insert_eq.
  - intros other Hne. rewrite lookup_insert_ne; [done |].
    intros Heq. apply Hne. symmetry.
    by do 2 apply String.app_inj in Heq.
Qed.

(** ** The change label *)

(** X19: the change label and the payment check of [checkout] agree.  With
    lines in the cart and a discount entry that reads, once [update_total]
    has run, [checkout] answers "amount received is less than the total
    due" exactly when the label reads "Amount Due", or "Change: 0.00" for
    nothing received against a total above zero, or a change below zero;
    so it goes on to the confirmation exactly when the label reads a
    change that is not below zero.  The premise is that received minus
    total is below zero exactly when received is below the total, for the
    two amounts at hand. *)
Theorem change_label_matches_checkout i st :
  cart st ≠ [] → discount_entry st ≠ Garbage →
  let totalled := update_total st in
  let received := read_received (received_entry st) in
  nltb (nsub received (final_total totalled)) (of_int 0)
  = nltb received (final_total totalled) →
  (InsufficientPayment ∈ shown_of (checkout i st) ↔
   match update_change totalled with
   | AmountDue _ | NoChange => True
   | Change amount => nltb amount (of_int 0) = true
   end).
Proof.
  intros Hc He. cbn zeta. intros Hlaw.
  pose proof (checkout_gates i st Hc He) as Hgo. cbn zeta in Hgo.
  pose proof (checkout_accepts i st Hc He) as Hacc. cbn zeta in Hacc.
  unfold update_change. rewrite update_total_received_entry, Hlaw.
  destruct (nltb (read_received (received_entry st)) (final_total (update_total st)))
    eqn:Hlt.
  - rewrite Hgo. cbn [shown_of]. split; [intros _ | intros _; apply list_elem_of_here].
    destruct (nltb (of_int 0) _); cbn [andb]; [done |].
    destruct (neqb _ _); cbn [andb]; [done |]. by rewrite Hlaw.
  - cbn [andb]. specialize (Hacc eq_refl). rewrite Hlaw. split; [| done].
    intros Hin. exfalso. destruct (checkout i st) as [shown st'|e st'] eqn:Hout.
    + by eapply Hacc.
    + by apply elem_of_nil in Hin.
Qed.

End Receipt.

(** * Binary64

    What the numbers of the program, IEEE doubles, add to the above. *)

(** [0 + w] is [w] for every weight that passes [weight <= 0]. *)
Lemma float_add_zero (w : float) :
  PrimFloat.leb w 0 = false → PrimFloat.add 0 w = w.
Proof.
  intros Hw. apply Prim2SF_inj. rewrite FloatAxioms.add_spec. rewrite FloatAxioms.leb_spec in Hw.
  change (Prim2SF 0) with (S754_zero false) in *.
  destruct (Prim2SF w) as [[|]|[|]| |[|] m e]; try reflexivity; discriminate.
Qed.

(** [s - s * 0] is [s], up to the sign of a zero, for a finite [s]. *)
Lemma float_sub_mul_zero (s : float) :
  float_is_finite s = true →
  PrimFloat.eqb (PrimFloat.sub s (PrimFloat.mul s 0)) s = true.
Proof.
  unfold float_is_finite. intros Hs.
  rewrite FloatAxioms.eqb_spec, FloatAxioms.sub_spec, FloatAxioms.mul_spec.
  change (Prim2SF 0) with (S754_zero false).
  destruct (Prim2SF s) as [[|]|[|]| |[|] m e]; try discriminate; try reflexivity;
    cbn; by rewrite Z.compare_refl, Pos.compare_refl.
Qed.

(** [x * 1] is [x] for a finite [x]: the product of the mantissas is the
    mantissa of [x] shifted by the 52 bits the rounding takes off again. *)
Lemma SFmul_one sx m e :
  bounded prec emax m e = true →
  SFmul prec emax (S754_finite sx m e) (S754_finite false 4503599627370496 (-52))
  = S754_finite sx m e.
Proof.
  intros Hb. apply andb_prop in Hb as [Hc He].
  unfold canonical_mantissa in Hc. apply Z.eqb_eq in Hc.
  unfold SFmul. rewrite xorb_false_r.
  rewrite Pos.mul_comm.
  change (4503599627370496 * m)%positive
    with (m~0~0~0~0~0~0~0~0~0~0~0~0~0~0~0~0~0~0~0~0~0~0~0~0~0~0~0~0~0~0~0~0~0~0~0~0~0~0~0~0~0~0~0~0~0~0~0~0~0~0~0~0)%positive.
  unfold binary_round_aux, shr_fexp.
  assert (Hd : Zdigits2 (Z.pos m~0~0~0~0~0~0~0~0~0~0~0~0~0~0~0~0~0~0~0~0~0~0~0~0~0~0~0~0~0~0~0~0~0~0~0~0~0~0~0~0~0~0~0~0~0~0~0~0~0~0~0~0)
               = Z.pos (digits2_pos m) + 52).
  { cbn [Zdigits2 digits2_pos]. lia. }
  rewrite Hd.
  replace (Z.pos (digits2_pos m) + 52 + (e + -52)) with (Z.pos (digits2_pos m) + e) by lia.
  rewrite Hc. replace (e - (e + -52)) with 52 by lia.
  cbn [shr shr_record_of_loc SpecFloat.iter_pos shr_1 orb].
  cbn [shr_m loc_of_shr_record round_nearest_even].
  replace (e + -52 + 52) with e by lia.
  cbn [Zdigits2]. rewrite Hc. rewrite Z.sub_diag. cbn [shr shr_m].
  by rewrite He.
Qed.

(** [s - s * 1] is [0.0] for a finite [s]. *)
Lemma float_sub_mul_one (s : float) :
  float_is_finite s = true →
  PrimFloat.sub s (PrimFloat.mul s 1) = 0%float.
Proof.
  unfold float_is_finite. intros Hs. apply Prim2SF_inj.
  rewrite FloatAxioms.sub_spec, FloatAxioms.mul_spec.
  change (Prim2SF 1) with (S754_finite false 4503599627370496 (-52)).
  change (Prim2SF 0) with (S754_zero false).
  pose proof (Prim2SF_valid s) as Hv.
  destruct (Prim2SF s) as [[|]|[|]| |sx m e]; try discriminate; try reflexivity.
  unfold SF64mul. rewrite SFmul_one by exact Hv.
  unfold SF64sub, SFsub. by rewrite Z.sub_diag.
Qed.

(** X2: in binary64, for a cart whose sum is finite, [update_total] with a
    discount entry that is empty, unreadable or out of range leaves a final
    total equal to the subtotal, as does a discount of 0; and a discount of
    100 leaves a final total of 0.0. *)
Theorem update_total_discount (st : State (num:=float)) :
  float_is_finite (cart_sum (cart st)) = true →
  (discount_entry st = Blank ∨ discount_entry st = Garbage
   ∨ discount_entry st = Typed (of_int 0)
   ∨ (∃ p, discount_entry st = Typed p ∧ in_range p = false) →
   subtotal (update_total st) = cart_sum (cart st)
   ∧ neqb (final_total (update_total st)) (subtotal (update_total st)) = true)
  ∧ (discount_entry st = Typed (of_int 100) →
     final_total (update_total st) = of_int 0).
Proof.
  intros Hs. rewrite update_total_subtotal, update_total_final_total. split.
  - intros Hzero. split; [done |].
    assert (Hp : (read_discount (discount_entry st)).1 = of_int 0).
    { destruct Hzero as [-> | [-> | [-> | (p & -> & Hp)]]]; cbn [read_discount fst];
        [done | done | by case_match | by rewrite Hp]. }
    rewrite Hp. by apply float_sub_mul_zero.
  - intros ->. by apply float_sub_mul_one.
Qed.

(** * More scenarios *)

(** In binary64: one milk at 50.00, with "abc", 150 and 100 typed as
    discount. *)
Lemma update_total_discount_witness :
  float_is_finite (cart_sum (cart float_one_milk)) = true
  ∧ final_total (update_total (float_discount Garbage float_one_milk)) = of_int 50
  ∧ final_total (update_total (float_discount (Typed 150%float) float_one_milk)) = of_int 50
  ∧ final_total (update_total (float_discount (Typed 100%float) float_one_milk)) = of_int 0.
Proof.
  assert (Hs : float_is_finite (cart_sum (cart float_one_milk)) = true) by reflexivity.
  destruct (update_total_discount (float_discount (Typed 100%float) float_one_milk) Hs)
    as [_ Hfull].
  split_and!; [exact Hs | vm_compute; reflexivity | vm_compute; reflexivity |].
  by apply Hfull.
Defined.


Lemma Qc_ltb_asym (a b : Qc) : nltb a b = true → nltb b a = false.
Proof.
  cbn [nltb Qc_arith]. rewrite Qc_ltb_lt. intros Hab. destruct (Qc_ltb b a) eqn:Hba; [| done].
  apply Qc_ltb_lt in Hba. exfalso. apply (Qclt_not_le _ _ Hab).
  by apply Qclt_le_weak.
Qed.

Lemma Qc_sub_covered (s q : Qc) :
  nltb s q = false → nltb (nsub s q) (of_int 0) = false.
Proof.
  cbn [nltb nsub of_int Qc_arith]. intros Hsq. destruct (Qc_ltb (Qcminus s q) (Qc_of_int 0)) eqn:Hneg; [| done].
  apply Qc_ltb_lt in Hneg. exfalso.
  assert (Hlt : Qclt s q).
  { apply Qclt_minus_iff. apply Qclt_minus_iff in Hneg.
    replace (Qcplus q (Qcopp s)) with (Qcplus (Qc_of_int 0) (Qcopp (Qcminus s q)));
      [exact Hneg |].
    change (Qc_of_int 0) with (Q2Qc 0). ring. }
  apply Qc_ltb_lt in Hlt. congruence.
Qed.

(** Milk and apples in the cart, through every operation. *)
Lemma cart_keys_stay_unique_witness :
  NoDup (cart milk_and_apples).*1
  ∧ NoDup (cart (state_of (scan_item "W-APPLE" (Some 1) milk_and_apples))).*1
  ∧ NoDup (cart (remove_selected_item (Some 0%nat) true milk_and_apples).2).*1.
Proof.
  assert (Hnd : NoDup (cart milk_and_apples).*1).
  { apply (bool_decide_unpack _). by vm_compute. }
  destruct (cart_keys_stay_unique milk_and_apples Hnd) as (Hs & _ & Hr & _).
  split_and!; [exact Hnd | apply Hs | apply Hr].
Defined.

(** In binary64: one milk of five, then 2.5 kg of the ten of apples. *)
Lemma lines_stay_within_stock_witness :
  Forall (λ kv, nltb (current_stock kv.1 float_one_milk) (quantity kv.2) = false)
         (cart float_one_milk)
  ∧ (let st' := (add_weighted_item "W-APPLE" (Some 2.5%float) float_one_milk).2 in
     Forall (λ kv, nltb (current_stock kv.1 st') (quantity kv.2) = false) (cart st')
     ∧ (cart st').*1 = ["1001"; "W-APPLE"]).
Proof.
  assert (H0 : Forall (λ kv, nltb (current_stock kv.1 float_shop) (quantity kv.2)
                             = false) (cart float_shop)) by constructor.
  destruct (lines_stay_within_stock float_shop H0) as (Hscan & _ & _).
  assert (H1 : Forall (λ kv, nltb (current_stock kv.1 float_one_milk) (quantity kv.2)
                             = false) (cart float_one_milk)).
  { apply (Hscan "1001" (Some 1)). intros n [= <-] _. vm_compute. reflexivity. }
  destruct (lines_stay_within_stock float_one_milk H1) as (_ & Hweigh & _).
  split; [exact H1 |]. cbv zeta. split.
  - apply (Hweigh "W-APPLE" (Some 2.5%float)). intros x _. exact (float_add_zero x).
  - vm_compute. reflexivity.
Defined.

(** The commit of milk and apples over the shop's full ledger. *)
Lemma commit_without_warnings_witness :
  NoDup (cart milk_and_apples).*1
  ∧ (∀ item_name,
       NegativeStockWarning item_name
       ∉ (commit at_ten (dec 350 1) (dec 0 1) (dec 0 1) (dec 400 1) (dec 50 1)
            milk_and_apples).1)
  ∧ (∀ item_name,
       CriticalInventoryMismatch item_name
       ∉ (commit at_ten (dec 350 1) (dec 0 1) (dec 0 1) (dec 400 1) (dec 50 1)
            milk_and_apples).1).
Proof.
  assert (Hnd : NoDup (cart milk_and_apples).*1).
  { apply (bool_decide_unpack _). by vm_compute. }
  split; [exact Hnd |].
  destruct (commit_without_warnings at_ten (dec 350 1) (dec 0 1) (dec 0 1) (dec 400 1)
              (dec 50 1) milk_and_apples Qc_sub_covered Hnd) as (Hneg & Hcrit).
  { repeat constructor.
    - exists {| stock_quantity := dec 100 1 |}. split; reflexivity.
    - exists {| stock_quantity := dec 10 1 |}. split; reflexivity. }
  split; [exact Hneg | exact Hcrit].
Defined.

(** Scenario A: three milk at 50.00, 10 percent off, 200.00 received. *)
Lemma checkout_commits_and_resets_witness :
  cart paying_three_milk ≠ []
  ∧ discount_entry paying_three_milk ≠ Garbage
  ∧ nltb (read_received (received_entry paying_three_milk))
         (final_total (update_total paying_three_milk)) = false
  ∧ ∃ warnings st',
      checkout at_ten paying_three_milk
      = Returned
          (warnings ++ [CheckoutComplete (Some "receipts/receipt_20240101_100000.txt")])
          st'
      ∧ cart st' = [] ∧ received_entry st' = Blank.
Proof.
  assert (Hc : cart paying_three_milk ≠ []) by (by vm_compute).
  assert (He : discount_entry paying_three_milk ≠ Garbage) by (by vm_compute).
  assert (Hp : nltb (read_received (received_entry paying_three_milk))
                    (final_total (update_total paying_three_milk)) = false)
    by (vm_compute; reflexivity).
  split_and!; [exact Hc | exact He | exact Hp |].
  destruct (checkout_commits_and_resets at_ten paying_three_milk Hc He eq_refl Hp)
    as (warnings & st' & Hout & Hcart & _ & Hrec & _).
  exists warnings, st'. by split_and!.
Defined.

(** The milk, first of two lines, is removed. *)
Lemma remove_selected_line_witness :
  NoDup (cart milk_and_apples).*1
  ∧ cart milk_and_apples !! 0%nat
    = Some ("1001", unit_line milk 3 None)
  ∧ (cart (remove_selected_item (Some 0%nat) true milk_and_apples).2).*1 = ["W-APPLE"]
  ∧ cart_get "1001" (cart (remove_selected_item (Some 0%nat) true milk_and_apples).2)
    = None.
Proof.
  assert (Hnd : NoDup (cart milk_and_apples).*1).
  { apply (bool_decide_unpack _). by vm_compute. }
  assert (Hn : cart milk_and_apples !! 0%nat = Some ("1001", unit_line milk 3 None))
    by reflexivity.
  destruct (remove_selected_line milk_and_apples 0 "1001" _ Hnd Hn)
    as (_ & _ & _ & Hdel & Hgone & _).
  split_and!; [exact Hnd | exact Hn | by rewrite Hdel | exact Hgone].
Defined.

(** Twenty more milk at a new price. *)
Lemma add_update_product_spec_witness :
  inventory_db
    (InventoryFrame.add_update_product "1001" "Fresh Milk" (Some (dec 55 1))
       (Some (dec 20 1)) stock_room shop_files).2 !! "1001"
  = Some {| stock_quantity := nadd (dec 100 1) (dec 20 1) |}.
Proof.
  destruct (add_update_product_spec "1001" "Fresh Milk" (dec 55 1) (dec 20 1)
              stock_room shop_files) as (_ & _ & Hq & _); [done | done |].
  exact Hq.
Defined.

(** Bread is added under a new barcode and deleted again. *)
Lemma delete_product_spec_witness :
  InventoryFrame.frame_products stock_room !! "2002" = None
  ∧ (let added := InventoryFrame.add_update_product "2002" "Bread" (Some (dec 30 1))
                    (Some (dec 12 1)) stock_room shop_files in
     let r := InventoryFrame.delete_product "2002" true added.1.2 added.2 in
     products_db r.2 = products_db shop_files
     ∧ inventory_db r.2 = inventory_db shop_files).
Proof.
  destruct (delete_product_spec "2002" stock_room shop_files) as (_ & _ & Hround);
    [done |].
  split; [reflexivity |].
  exact (Hround eq_refl eq_refl "Bread" (dec 30 1) (dec 12 1) ltac:(done)).
Defined.

(** Twenty more milk, seen from the billing screen with three in the cart. *)
Lemma restock_reaches_billing_witness :
  let d := (InventoryFrame.add_update_product "1001" "Fresh Milk" (Some (dec 55 1))
              (Some (dec 20 1)) (InventoryFrame.refresh_data (disk three_milk))
              (disk three_milk)).2 in
  current_stock "1001" (refresh_data (with_disk d three_milk))
  = nadd (dec 100 1) (dec 20 1)
  ∧ cart (refresh_data (with_disk d three_milk)) = cart three_milk.
Proof.
  destruct (restock_reaches_billing "1001" "Fresh Milk" (dec 55 1) (dec 20 1)
              three_milk) as (Hstock & _ & _ & Hcart); [done | done |].
  split; [exact Hstock | exact Hcart].
Defined.

(** Milk sold twice and apples once: milk, with 7, comes first. *)
Lemma chart_bars_descend_witness :
  ∃ bars, AnalyticsFrame.refresh_data logged_files
          = AnalyticsFrame.Bars bars.*1 bars.*2
          ∧ AnalyticsFrame.descending bars
          ∧ bars.*1 = ["Milk"; "Apple"].
Proof.
  destruct (chart_bars_descend logged_files Qc_ltb_asym) as [_ Hbars].
  destruct (Hbars _ _ eq_refl) as (bars & Hshow & _ & Hdesc).
  exists bars. split_and!; [exact Hshow | exact Hdesc |].
  apply (f_equal (λ c, match c with
                       | AnalyticsFrame.Bars p _ => p
                       | AnalyticsFrame.NoData => []
                       end)) in Hshow.
  cbn beta iota in Hshow. rewrite <- Hshow. vm_compute. reflexivity.
Defined.

(** Scenario E on the label: 40.00 received for one milk at 50.00 reads
    "Amount Due: 10.00", and the checkout is refused; minus 5.00 typed as
    received for three milk reads a change below zero, and the checkout is
    refused as well. *)
Lemma change_label_matches_checkout_witness :
  update_change (update_total short_paid) = AmountDue (dec 10 1)
  ∧ InsufficientPayment ∈ shown_of (checkout at_ten short_paid)
  ∧ update_change (update_total refund_typed) = Change (dec (-155) 1)
  ∧ InsufficientPayment ∈ shown_of (checkout at_ten refund_typed).
Proof.
  assert (Hc : cart short_paid ≠ []) by (by vm_compute).
  assert (He : discount_entry short_paid ≠ Garbage) by (by vm_compute).
  assert (Hc' : cart refund_typed ≠ []) by (by vm_compute).
  assert (He' : discount_entry refund_typed ≠ Garbage) by (by vm_compute).
  destruct (change_label_matches_checkout at_ten short_paid Hc He) as [_ Hdue];
    [vm_compute; reflexivity |].
  destruct (change_label_matches_checkout at_ten refund_typed Hc' He') as [_ Hneg];
    [vm_compute; reflexivity |].
  split_and!.
  - vm_compute. reflexivity.
  - apply Hdue. exact I.
  - vm_compute. reflexivity.
  - apply Hneg. vm_compute. reflexivity.
Defined.
